(** * TummyTracker: the food-intolerance prediction engine ([ml_engine.py])

    A shallow embedding of class [TummyTrackerML] and of the parts of
    scikit-learn, joblib and the file system it drives.

    Conventions of the embedding:
    - the attributes of [self] are the fields of the record [engine]; a
      method that assigns to them returns the engine it leaves behind;
    - the file system is a finite map from paths to the objects pickled
      there, threaded through the methods that touch it;
    - a Python call either returns or raises: [outcome];
    - numpy's float64 values are idealised as exact rationals ([Q]);
    - Python [str] values are byte strings; comparison is lexicographic
      on the bytes, which is the code-point order for UTF-8 text. *)

From Stdlib Require Import Ascii String QArith Qminmax Lqa OrdersEx.
From stdpp Require Import gmap strings list fin_maps sorting.

(** ** Python outcomes *)

Inductive exn : Type :=
  | ValueError (msg : string)
  | KeyError (key : string)
  | NotFittedError
  | UnpicklingError (file : string).

Inductive outcome (A : Type) : Type :=
  | Return (a : A)
  | Raise (e : exn).
Arguments Return {A} a.
Arguments Raise {A} e.

(** [outcome] is a monad; stdpp's [x ← m; k] sequences calls and lets the
    first exception through. *)
#[global] Instance outcome_ret : MRet outcome := fun A a => Return a.
#[global] Instance outcome_bind : MBind outcome := fun A B k m =>
  match m with
  | Return a => k a
  | Raise e => Raise e
  end.

(** ** sklearn.preprocessing.LabelEncoder

    [fit] stores [classes_ = sorted(set(values))]; the code of a value is
    its position in [classes_]; [transform] raises [ValueError] on a value
    that is not in [classes_]. *)

Module LabelEncoder.

Record t : Type := Build { classes_ : list string }.

Definition str_lt (a b : string) : Prop := String_as_OT.compare a b = Lt.

Fixpoint insert_unique (v : string) (l : list string) : list string :=
  match l with
  | [] => [v]
  | x :: r =>
      match String_as_OT.compare v x with
      | Lt => v :: x :: r
      | Eq => x :: r
      | Gt => x :: insert_unique v r
      end
  end.

(** [sorted(set(values))] *)
Definition sorted_set (values : list string) : list string :=
  foldr insert_unique [] values.

Fixpoint index_of (v : string) (l : list string) : option nat :=
  match l with
  | [] => None
  | x :: r => if String.eqb v x then Some 0%nat else S <$> index_of v r
  end.

Definition fit (values : list string) : t :=
  {| classes_ := sorted_set values |}.

Definition transform_one (le : t) (v : string) : outcome nat :=
  match index_of v (classes_ le) with
  | Some c => Return c
  | None => Raise (ValueError "y contains previously unseen labels")
  end.

Fixpoint transform (le : t) (values : list string) : outcome (list nat) :=
  match values with
  | [] => Return []
  | v :: r =>
      c ← transform_one le v;
      cs ← transform le r;
      Return (c :: cs)
  end.

(** [fit_transform] returns the positions of the values in the classes
    it has just stored. *)
Definition fit_transform (values : list string) : t * list nat :=
  let le := fit values in
  (le, omap (fun v => index_of v (classes_ le)) values).

End LabelEncoder.

(** The reading of the specification: codes handed out in the order in
    which the values are first seen. *)
Definition first_seen (values : list string) : list string :=
  foldl (fun acc v => if bool_decide (v ∈ acc) then acc else acc ++ [v]) [] values.

Definition first_seen_code (values : list string) (v : string) : option nat :=
  LabelEncoder.index_of v (first_seen values).

(** ** Python strings *)

(** [str.lower()] on ASCII text: the letters A..Z move to a..z, every
    other byte is kept. *)
Definition lower_char (c : ascii) : ascii :=
  let n := N_of_ascii c in
  if (65 <=? n)%N && (n <=? 90)%N then ascii_of_N (n + 32) else c.

Fixpoint lower (s : string) : string :=
  match s with
  | EmptyString => EmptyString
  | String c r => String (lower_char c) (lower r)
  end.

(** [word in text] *)
Fixpoint contains (word text : string) : bool :=
  String.prefix word text ||
  match text with
  | EmptyString => false
  | String _ r => contains word r
  end.

(** [any(word in text for word in words)] *)
Definition any_in (words : list string) (text : string) : bool :=
  existsb (fun word => contains word text) words.

(** Truth value of an optional text column: [None] and [''] are false. *)
Definition truthy_str (s : option string) : bool :=
  match s with
  | Some (String _ _) => true
  | _ => false
  end.

(** Truth value of an optional float column: [None] and [0.0] are false. *)
Definition truthy_num (q : option Q) : bool :=
  match q with
  | Some x => negb (Qeq_bool x 0)
  | None => false
  end.

(** [str(v)] of a nullable text column, as [astype(str)] produces it. *)
Definition py_str (s : option string) : string :=
  match s with
  | Some v => v
  | None => "None"
  end.

(** ** datetime

    A naive [datetime] is kept as its number of seconds since
    1970-01-01 00:00:00 (microseconds play no role in the engine). *)
Module datetime.
Definition t : Type := Z.
Definition hour (d : t) : Z := ((d `div` 3600) `mod` 24)%Z.
(** Monday is 0; 1970-01-01 was a Thursday. *)
Definition weekday (d : t) : Z := ((d `div` 86400 + 3) `mod` 7)%Z.
(** [(d - datetime(1970, 1, 1)).days] *)
Definition days_since_epoch (d : t) : Z := (d `div` 86400)%Z.
End datetime.

(** ** The rows the engine reads (models.py) *)

Module Food.
Record t : Type := Build {
  category : option string;
  ingredients : option string;
  allergens : option string
}.
End Food.

Module Meal.
Record t : Type := Build {
  id : Z;
  food : Food.t;
  quantity : option Q;
  meal_time : datetime.t;
  notes : option string
}.
End Meal.

Module Symptom.
Record t : Type := Build {
  meal_id : Z
}.
End Symptom.

(** ** Feature dictionaries

    The dictionary built per meal, with its keys in insertion order.
    [caused_symptoms] is present in the dictionaries of
    [prepare_features] and absent from the one a caller hands to
    [predict_symptoms]. *)
Record meal_features : Type := MealFeatures {
  food_category : option string;
  meal_hour : Z;
  meal_day_of_week : Z;
  has_quantity : Z;
  quantity : Q;
  has_notes : Z;
  has_ingredients : Z;
  has_dairy : Z;
  has_gluten : Z;
  has_spicy : Z;
  has_allergens : Z;
  allergen_count : Z;
  days_since_epoch : Z;
  caused_symptoms : option Z
}.

Definition dairy_words : list string := ["milk"; "cheese"; "yogurt"; "butter"; "cream"].
Definition gluten_words : list string := ["wheat"; "flour"; "bread"; "pasta"].
Definition spicy_words : list string := ["pepper"; "chili"; "hot"; "spicy"].
Definition allergen_words : list string := ["dairy"; "nuts"; "gluten"; "soy"; "fish"].

Definition flag (b : bool) : Z := if b then 1%Z else 0%Z.

(** Lines 66-78: the four keys derived from the ingredients text, in the
    order [has_ingredients], [has_dairy], [has_gluten], [has_spicy]. *)
Definition ingredient_features (ingredients : option string) : Z * Z * Z * Z :=
  if truthy_str ingredients then
    let ingredients_lower := lower (py_str ingredients) in
    (1%Z,
     flag (any_in dairy_words ingredients_lower),
     flag (any_in gluten_words ingredients_lower),
     flag (any_in spicy_words ingredients_lower))
  else (0%Z, 0%Z, 0%Z, 0%Z).

(** Lines 80-87: [has_allergens] and [allergen_count]. *)
Definition allergen_features (allergens : option string) : Z * Z :=
  if truthy_str allergens then
    let allergens_lower := lower (py_str allergens) in
    (1%Z,
     Z.of_nat (length (List.filter (fun a => contains a allergens_lower) allergen_words)))
  else (0%Z, 0%Z).

(** The body of the loop of [prepare_features], lines 56-93. *)
Definition features_of_meal (meal_symptoms : gset Z) (meal : Meal.t) : meal_features :=
  let f := Meal.food meal in
  let '(with_ingredients, dairy, gluten, spicy) := ingredient_features (Food.ingredients f) in
  let '(with_allergens, count) := allergen_features (Food.allergens f) in
  {| food_category := Food.category f;
     meal_hour := datetime.hour (Meal.meal_time meal);
     meal_day_of_week := datetime.weekday (Meal.meal_time meal);
     has_quantity := flag (truthy_num (Meal.quantity meal));
     quantity := if truthy_num (Meal.quantity meal)
                 then default 0%Q (Meal.quantity meal) else 0%Q;
     has_notes := flag (truthy_str (Meal.notes meal));
     has_ingredients := with_ingredients;
     has_dairy := dairy;
     has_gluten := gluten;
     has_spicy := spicy;
     has_allergens := with_allergens;
     allergen_count := count;
     days_since_epoch := datetime.days_since_epoch (Meal.meal_time meal);
     caused_symptoms := Some (flag (bool_decide (Meal.id meal ∈ meal_symptoms))) |}.

(** The keys of the dictionary [meal_symptoms], lines 46-50. *)
Definition symptom_meal_ids (symptoms_data : list Symptom.t) : gset Z :=
  list_to_set (Symptom.meal_id <$> symptoms_data).

Definition wheat_meal : Meal.t :=
  {| Meal.id := 1;
     Meal.food := {| Food.category := Some "gluten";
                     Food.ingredients := Some "Whole wheat flour, water, yeast";
                     Food.allergens := Some "Gluten" |};
     Meal.quantity := None;
     Meal.meal_time := 1700000000%Z;
     Meal.notes := None |}.

(** ** Fitted classifiers and the library they come from *)

(** A fitted binary classifier. [predict_proba x] is the row
    [predict_proba(X)[0]]: the probabilities of class 0 and of class 1.
    (Both classifiers are fitted on the same targets, and
    [LogisticRegression.fit] refuses targets with a single class, so a
    stored pair always has the two columns.) *)
Record classifier : Type := Classifier {
  predict_proba : list Q -> Q * Q;
  predict : list Q -> Z
}.

(** What the engine takes from numpy and scikit-learn without this
    development looking inside: the square root, the parsing of a text
    cell by [check_array], the seeded split and the two fitting
    procedures (a fit can raise). *)
Class Sklearn : Type := {
  np_sqrt : Q -> Q;
  np_float : option string -> outcome Q;
  train_test_split :
    list (list Q) -> list Z -> list (list Q) * list (list Q) * list Z * list Z;
  RandomForestClassifier_fit : list (list Q) -> list Z -> outcome classifier;
  LogisticRegression_fit : list (list Q) -> list Z -> outcome classifier
}.

(** [accuracy_score(y_true, y_pred)] *)
Definition accuracy_score (y_true y_pred : list Z) : Q :=
  (inject_Z (Z.of_nat (length (List.filter (fun p => Z.eqb (fst p) (snd p)) (zip y_true y_pred))))
   / inject_Z (Z.of_nat (length y_true)))%Q.

(** ** sklearn.preprocessing.StandardScaler *)

Module StandardScaler.

Local Open Scope Q_scope.

Record stats : Type := Stats {
  mean_ : list Q;
  var_ : list Q;
  scale_ : list Q
}.

(** [None] is the scaler as [StandardScaler()] creates it. *)
Definition t : Type := option stats.

Definition sum (l : list Q) : Q := foldr Qplus 0 l.

Definition mean (l : list Q) : Q := sum l / inject_Z (Z.of_nat (length l)).

Definition variance (l : list Q) : Q :=
  mean ((fun x => (x - mean l) * (x - mean l)) <$> l).

Definition column (j : nat) (X : list (list Q)) : list Q :=
  (fun row => nth j row 0) <$> X.

(** [_handle_zeros_in_scale]: a constant column, recognised on its
    variance, gets the scale 1. *)
Definition scale_of_var `{Sklearn} (v : Q) : Q :=
  if Qeq_bool v 0 then 1 else np_sqrt v.

(** The statistics [fit(X)] stores.  ([fit] first resets the scaler it
    is called on, so a call that raises leaves it unfitted.) *)
Definition fit `{Sklearn} (X : list (list Q)) : outcome stats :=
  match X with
  | [] => Raise (ValueError "Found array with 0 sample(s)")
  | row :: _ =>
      let columns := (fun j => column j X) <$> seq 0%nat (length row) in
      Return {| mean_ := mean <$> columns;
                var_ := variance <$> columns;
                scale_ := (fun c => scale_of_var (variance c)) <$> columns |}
  end.

(** [(x - mean_) / scale_] on one row. *)
Definition scale_row (s : stats) (row : list Q) : list Q :=
  zip_with (fun x ms => (x - fst ms) / snd ms) row (zip (mean_ s) (scale_ s)).

Definition transform_row (s : t) (row : list Q) : outcome (list Q) :=
  match s with
  | None => Raise NotFittedError
  | Some st =>
      if (length row =? length (mean_ st))%nat
      then Return (scale_row st row)
      else Raise (ValueError "X has a different number of features than StandardScaler is expecting")
  end.

(** [transform(X)]: the fitted check comes first, then the check that
    there is at least one row. *)
Definition transform (s : t) (X : list (list Q)) : outcome (list (list Q)) :=
  match s, X with
  | None, _ => Raise NotFittedError
  | Some _, [] => Raise (ValueError "Found array with 0 sample(s)")
  | Some _, _ :: _ => mapM (transform_row s) X
  end.

End StandardScaler.

(** ** The engine *)

(** An entry of [self.models]; [load_models] stores no [accuracy]. *)
Record model_info : Type := ModelInfo {
  model : classifier;
  accuracy : option Q;
  type : string
}.

Record engine : Type := Engine {
  model_path : string;
  models : gmap string model_info;
  label_encoders : gmap string LabelEncoder.t;
  scaler : StandardScaler.t;
  is_trained : bool
}.

(** [TummyTrackerML(model_path)] *)
Definition __init__ (path : string) : engine :=
  {| model_path := path;
     models := ∅;
     label_encoders := ∅;
     scaler := None;
     is_trained := false |}.

(** What [joblib.dump] leaves in a file. *)
Inductive artifact : Type :=
  | PickledModel (c : classifier)
  | PickledScaler (s : StandardScaler.t)
  | PickledEncoders (e : gmap string LabelEncoder.t).

(** [os.path.join(a, b)] *)
Definition ends_with_slash (a : string) : bool :=
  match String.get (String.length a - 1)%nat a with
  | Some c => Ascii.eqb c "/"
  | None => false
  end.

Definition os_path_join (a b : string) : string :=
  if String.prefix "/" b then b
  else if String.eqb a "" || ends_with_slash a then a +:+ b
  else a +:+ "/" +:+ b.

(** [name.replace('_', ' ').title()] on ASCII text *)
Definition is_upper (c : ascii) : bool :=
  let n := N_of_ascii c in (65 <=? n)%N && (n <=? 90)%N.
Definition is_lower (c : ascii) : bool :=
  let n := N_of_ascii c in (97 <=? n)%N && (n <=? 122)%N.
Definition upper_char (c : ascii) : ascii :=
  if is_lower c then ascii_of_N (N_of_ascii c - 32) else c.

Fixpoint replace_char (old new : ascii) (s : string) : string :=
  match s with
  | EmptyString => EmptyString
  | String c r => String (if Ascii.eqb c old then new else c) (replace_char old new r)
  end.

Fixpoint title_from (previous_cased : bool) (s : string) : string :=
  match s with
  | EmptyString => EmptyString
  | String c r =>
      String (if previous_cased then lower_char c else upper_char c)
             (title_from (is_upper c || is_lower c) r)
  end.

Definition title (s : string) : string := title_from false s.

(** ** The methods of [TummyTrackerML] *)

Definition set_label_encoders (e : gmap string LabelEncoder.t) (st : engine) : engine :=
  {| model_path := model_path st; models := models st; label_encoders := e;
     scaler := scaler st; is_trained := is_trained st |}.

Definition set_scaler (s : StandardScaler.t) (st : engine) : engine :=
  {| model_path := model_path st; models := models st;
     label_encoders := label_encoders st; scaler := s; is_trained := is_trained st |}.

Definition set_models (m : gmap string model_info) (st : engine) : engine :=
  {| model_path := model_path st; models := m;
     label_encoders := label_encoders st; scaler := scaler st;
     is_trained := is_trained st |}.

Definition set_is_trained (b : bool) (st : engine) : engine :=
  {| model_path := model_path st; models := models st;
     label_encoders := label_encoders st; scaler := scaler st; is_trained := b |}.

(** The twelve numeric feature columns, in insertion order. *)
Definition feature_columns (mf : meal_features) : list Q :=
  [ inject_Z (meal_hour mf); inject_Z (meal_day_of_week mf);
    inject_Z (has_quantity mf); quantity mf; inject_Z (has_notes mf);
    inject_Z (has_ingredients mf); inject_Z (has_dairy mf);
    inject_Z (has_gluten mf); inject_Z (has_spicy mf);
    inject_Z (has_allergens mf); inject_Z (allergen_count mf);
    inject_Z (days_since_epoch mf) ].

(** All columns after [food_category]: the label column follows when the
    dictionary has the key. *)
Definition numeric_columns (mf : meal_features) : list Q :=
  feature_columns mf ++
  match caused_symptoms mf with
  | Some l => [inject_Z l]
  | None => []
  end.

(** [prepare_features(meals_data, symptoms_data)]: the engine it leaves
    behind, and the pair [(X, y)].  [X] has the encoded [food_category]
    first and the label column dropped. *)
Definition prepare_features (st : engine) (meals_data : list Meal.t)
    (symptoms_data : list Symptom.t)
  : engine * (option (list (list Q)) * option (list Z)) :=
  match meals_data with
  | [] => (st, (None, None))
  | _ :: _ =>
      let meal_symptoms := symptom_meal_ids symptoms_data in
      let features := features_of_meal meal_symptoms <$> meals_data in
      let targets := omap caused_symptoms features in
      let '(le, codes) :=
        LabelEncoder.fit_transform ((fun mf => py_str (food_category mf)) <$> features) in
      let st' := set_label_encoders (<["food_category" := le]> (label_encoders st)) st in
      let X := zip_with (fun c mf => inject_Z (Z.of_nat c) :: feature_columns mf)
                        codes features in
      (st', (Some X, Some targets))
  end.

(** The dictionary returned by [predict_symptoms]; [model_details] is
    absent from the one returned for an untrained engine. *)
Record detail : Type := Detail {
  detail_prediction : string;
  detail_confidence : Q
}.

Record details : Type := Details {
  random_forest : detail;
  logistic_regression : detail
}.

Record result : Type := Result {
  prediction : string;
  confidence : Q;
  recommendation : string;
  model_details : option details
}.

(** [max] of a two-element array: the first maximal element. *)
Definition max2 (p : Q * Q) : Q :=
  if Qle_bool (snd p) (fst p) then fst p else snd p.

(** [x > 0.5] *)
Definition above_half (x : Q) : bool := negb (Qle_bool x (1 # 2)).

Definition _generate_recommendation (mf : meal_features) (pred : Z) (conf : Q) : string :=
  if (pred =? 1)%Z then
    if bool_decide (food_category mf = Some "dairy") then
      "Consider dairy alternatives like almond milk or coconut yogurt."
    else if bool_decide (food_category mf = Some "gluten") then
      "Try gluten-free alternatives like quinoa or rice."
    else if bool_decide (food_category mf = Some "spicy") then
      "Consider milder versions or reduce spice levels."
    else
      "Monitor your symptoms and consider avoiding this food category temporarily."
  else
    "This food appears safe for you based on current data.".

Definition not_trained_result : result :=
  {| prediction := "Model not trained";
     confidence := 0;
     recommendation := "Need more data to make predictions";
     model_details := None |}.

(** [self.models[name]] *)
Definition models_getitem (st : engine) (name : string) : outcome model_info :=
  match models st !! name with
  | Some info => Return info
  | None => Raise (KeyError name)
  end.

Section Methods.

Context `{Sklearn}.

(** Lines 186-191: the frame of one row and the encoding loop.
    [prepare_features] stores an encoder under the key
    ['food_category'] only, and that is the only one consulted here.
    Without it the text cell reaches [check_array] as it is. *)
Definition encode_row (st : engine) (mf : meal_features) : outcome (list Q) :=
  category ←
    match label_encoders st !! "food_category" with
    | Some le =>
        c ← LabelEncoder.transform_one le (py_str (food_category mf));
        Return (inject_Z (Z.of_nat c))
    | None => np_float (food_category mf)
    end;
  Return (category :: numeric_columns mf).

Definition predict_symptoms (st : engine) (mf : meal_features) : outcome result :=
  if negb (is_trained st) then Return not_trained_result
  else
    df ← encode_row st mf;
    X_scaled ← StandardScaler.transform_row (scaler st) df;
    rf ← models_getitem st "random_forest";
    let rf_pred := predict_proba (model rf) X_scaled in
    lr ← models_getitem st "logistic_regression";
    let lr_pred := predict_proba (model lr) X_scaled in
    let ensemble_prob :=
      (((fst rf_pred + fst lr_pred) / 2)%Q, ((snd rf_pred + snd lr_pred) / 2)%Q) in
    let pred := if above_half (snd ensemble_prob) then 1%Z else 0%Z in
    let conf := max2 ensemble_prob in
    let recommendation := _generate_recommendation mf pred conf in
    Return
      {| prediction := if (pred =? 1)%Z then "Likely to cause symptoms"
                       else "Unlikely to cause symptoms";
         confidence := conf;
         recommendation := recommendation;
         model_details := Some
           {| random_forest :=
                {| detail_prediction := if above_half (snd rf_pred) then "Likely" else "Unlikely";
                   detail_confidence := max2 rf_pred |};
              logistic_regression :=
                {| detail_prediction := if above_half (snd lr_pred) then "Likely" else "Unlikely";
                   detail_confidence := max2 lr_pred |} |} |}.

(** The file of an artifact. *)
Definition pkl (st : engine) (name : string) : string :=
  os_path_join (model_path st) (name +:+ ".pkl").

(** Lines 259-261: the loop over [self.models.items()], one
    [joblib.dump] per item. *)
Definition save_loop (st : engine) (disk : gmap string artifact)
    (items : list (string * model_info)) : gmap string artifact :=
  foldl (fun d item => <[pkl st (fst item) := PickledModel (model (snd item))]> d)
        disk items.

(** [save_models()]: the directory it leaves behind. *)
Definition save_models (st : engine) (disk : gmap string artifact) : gmap string artifact :=
  if negb (is_trained st) then disk
  else
    let disk1 := save_loop st disk (map_to_list (models st)) in
    let disk2 := <[pkl st "scaler" := PickledScaler (scaler st)]> disk1 in
    <[pkl st "encoders" := PickledEncoders (label_encoders st)]> disk2.

(** [joblib.load] at the three places it is used.  A file that does
    not hold an object of the kind its name announces is read as a
    corrupt pickle: the call raises. *)
Definition load_classifier (disk : gmap string artifact) (file : string) : outcome classifier :=
  match disk !! file with
  | Some (PickledModel c) => Return c
  | _ => Raise (UnpicklingError file)
  end.

Definition load_scaler (disk : gmap string artifact) (file : string) : outcome StandardScaler.t :=
  match disk !! file with
  | Some (PickledScaler s) => Return s
  | _ => Raise (UnpicklingError file)
  end.

Definition load_encoders (disk : gmap string artifact) (file : string)
  : outcome (gmap string LabelEncoder.t) :=
  match disk !! file with
  | Some (PickledEncoders e) => Return e
  | _ => Raise (UnpicklingError file)
  end.

(** [os.path.exists] *)
Definition exists_ (disk : gmap string artifact) (file : string) : bool :=
  bool_decide (is_Some (disk !! file)).

(** One turn of the loop of [load_models], lines 273-279: the engine
    it leaves behind and whether it raised. *)
Definition load_model (disk : gmap string artifact) (name : string) (st : engine)
  : engine * outcome () :=
  if exists_ disk (pkl st name) then
    match load_classifier disk (pkl st name) with
    | Return c =>
        (set_models (<[name := {| model := c; accuracy := None;
                                  type := title (replace_char "_" " " name) |}]> (models st)) st,
         Return ())
    | Raise e => (st, Raise e)
    end
  else (st, Return ()).

(** [load_models()]: the [try] block runs until the first exception;
    the handler prints and falls through to [return False]. *)
Definition load_models (st : engine) (disk : gmap string artifact) : engine * bool :=
  match load_model disk "random_forest" st with
  | (st1, Raise _) => (st1, false)
  | (st1, Return _) =>
      match load_model disk "logistic_regression" st1 with
      | (st2, Raise _) => (st2, false)
      | (st2, Return _) =>
          if exists_ disk (pkl st2 "scaler") && exists_ disk (pkl st2 "encoders") then
            match load_scaler disk (pkl st2 "scaler") with
            | Raise _ => (st2, false)
            | Return s =>
                let st3 := set_scaler s st2 in
                match load_encoders disk (pkl st3 "encoders") with
                | Raise _ => (st3, false)
                | Return e =>
                    (set_is_trained true (set_label_encoders e st3), true)
                end
            end
          else (st2, false)
      end
  end.

(** [train_models(X, y)]: the engine and the directory it leaves
    behind, and what the call returns or raises. *)
Definition train_models (st : engine) (disk : gmap string artifact)
    (X : option (list (list Q))) (y : option (list Z))
  : engine * gmap string artifact * outcome bool :=
  match X, y with
  | Some X, Some y =>
      if (length X <? 10)%nat then (st, disk, Return false)
      else
        let '(X_train, X_test, y_train, y_test) := train_test_split X y in
        match StandardScaler.fit X_train with
        | Raise e => (set_scaler None st, disk, Raise e)
        | Return fitted =>
            let st1 := set_scaler (Some fitted) st in
            let fits :=
              X_train_scaled ← StandardScaler.transform (scaler st1) X_train;
              X_test_scaled ← StandardScaler.transform (scaler st1) X_test;
              rf_model ← RandomForestClassifier_fit X_train_scaled y_train;
              let rf_score := accuracy_score y_test (predict rf_model <$> X_test_scaled) in
              lr_model ← LogisticRegression_fit X_train_scaled y_train;
              let lr_score := accuracy_score y_test (predict lr_model <$> X_test_scaled) in
              Return (rf_model, rf_score, lr_model, lr_score) in
            match fits with
            | Raise e => (st1, disk, Raise e)
            | Return (rf_model, rf_score, lr_model, lr_score) =>
                let st2 :=
                  set_models
                    (<["random_forest" :=
                         {| model := rf_model; accuracy := Some rf_score;
                            type := "Random Forest" |}]> (models st1)) st1 in
                let st3 :=
                  set_models
                    (<["logistic_regression" :=
                         {| model := lr_model; accuracy := Some lr_score;
                            type := "Logistic Regression" |}]> (models st2)) st2 in
                let st4 := set_is_trained true st3 in
                (st4, save_models st4 disk, Return true)
            end
        end
  | _, _ => (st, disk, Return false)
  end.

End Methods.

(** ** Notions used to state the properties *)



(** A two-class distribution: non-negative entries that sum to 1. *)
Definition distribution (p : Q * Q) : Prop :=
  (0 <= fst p)%Q ∧ (0 <= snd p)%Q ∧ (fst p + snd p == 1)%Q.

(** The names under which artifacts are written and read. *)
Definition known (name : string) : Prop :=
  name = "random_forest" ∨ name = "logistic_regression"
  ∨ name = "scaler" ∨ name = "encoders".

(** ** A stand-in for the library and small engines, for the examples *)

Definition constant_classifier (p : Q) : classifier :=
  {| predict_proba := fun _ => ((1 - p)%Q, p);
     predict := fun _ => if above_half p then 1%Z else 0%Z |}.

Definition example_sklearn : Sklearn :=
  {| np_sqrt := fun v => (Z.sqrt (Qnum v * Zpos (Qden v)) # Qden v);
     np_float := fun _ => Raise (ValueError "could not convert string to float");
     train_test_split := fun X y => (drop 2 X, take 2 X, drop 2 y, take 2 y);
     RandomForestClassifier_fit := fun _ _ => Return (constant_classifier (3 # 4));
     LogisticRegression_fit := fun _ _ => Return (constant_classifier (1 # 4)) |}.

Definition example_models : gmap string model_info :=
  <["logistic_regression" :=
      {| model := constant_classifier (1 # 4); accuracy := Some 1%Q;
         type := "Logistic Regression" |}]>
  (<["random_forest" :=
      {| model := constant_classifier (7 # 8); accuracy := Some 1%Q;
         type := "Random Forest" |}]> ∅).

Definition example_scaler : StandardScaler.t :=
  Some {| StandardScaler.mean_ := replicate 13 0%Q;
          StandardScaler.var_ := replicate 13 1%Q;
          StandardScaler.scale_ := replicate 13 1%Q |}.

(** An engine trained on meals of the category "dairy" only. *)
Definition example_engine : engine :=
  {| model_path := "data/models/";
     models := example_models;
     label_encoders := <["food_category" := LabelEncoder.fit ["dairy"]]> ∅;
     scaler := example_scaler;
     is_trained := true |}.

Definition example_features (category : string) : meal_features :=
  {| food_category := Some category;
     meal_hour := 12; meal_day_of_week := 2; has_quantity := 1; quantity := 1%Q;
     has_notes := 0; has_ingredients := 1; has_dairy := 0; has_gluten := 0;
     has_spicy := 1; has_allergens := 0; allergen_count := 0;
     days_since_epoch := 19675; caused_symptoms := None |}.

(** The frame row of [example_features "dairy"] in [example_engine],
    encoded and then scaled. *)
Definition example_row : list Q :=
  inject_Z 0 :: numeric_columns (example_features "dairy").

Definition example_scaled : list Q :=
  zip_with (fun x ms => ((x - fst ms) / snd ms)%Q) example_row
           (zip (replicate 13 0%Q) (replicate 13 1%Q)).

Definition example_rf : model_info :=
  {| model := constant_classifier (7 # 8); accuracy := Some 1%Q; type := "Random Forest" |}.

Definition example_lr : model_info :=
  {| model := constant_classifier (1 # 4); accuracy := Some 1%Q;
     type := "Logistic Regression" |}.


(** The training request of the interface, [train(user_history)]: the
    features are prepared from the history and handed to
    [train_models]. *)
Definition train `{Sklearn} (st : engine) (disk : gmap string artifact)
    (meals_data : list Meal.t) (symptoms_data : list Symptom.t)
  : engine * gmap string artifact * outcome bool :=
  let '(st1, (X, y)) := prepare_features st meals_data symptoms_data in
  train_models st1 disk X y.

(** The category column of a history, as [astype(str)] gives it. *)
Definition categories (meals_data : list Meal.t) : list string :=
  (fun meal => py_str (Food.category (Meal.food meal))) <$> meals_data.

(** A model directory without the logistic-regression artifact. *)
Definition partial_disk : gmap string artifact :=
  <["data/models/random_forest.pkl" := PickledModel (constant_classifier (7 # 8))]>
  (<["data/models/scaler.pkl" := PickledScaler example_scaler]>
  (<["data/models/encoders.pkl" := PickledEncoders (label_encoders example_engine)]> ∅)).

(** A model directory with one classifier artifact and nothing else. *)
Definition classifier_only_disk : gmap string artifact :=
  <["data/models/random_forest.pkl" := PickledModel (constant_classifier (7 # 8))]> ∅.


(** The dictionary a caller hands to [predict_symptoms] for a meal: the
    keys of [prepare_features] without the label. *)
Definition drop_label (mf : meal_features) : meal_features :=
  {| food_category := food_category mf;
     meal_hour := meal_hour mf;
     meal_day_of_week := meal_day_of_week mf;
     has_quantity := has_quantity mf;
     quantity := quantity mf;
     has_notes := has_notes mf;
     has_ingredients := has_ingredients mf;
     has_dairy := has_dairy mf;
     has_gluten := has_gluten mf;
     has_spicy := has_spicy mf;
     has_allergens := has_allergens mf;
     allergen_count := allergen_count mf;
     days_since_epoch := days_since_epoch mf;
     caused_symptoms := None |}.

(** What [predict_symptoms] relies on: an engine whose flag is set holds
    both classifiers. *)
Definition usable (st : engine) : Prop :=
  is_trained st = true ->
  is_Some (models st !! "random_forest") ∧ is_Some (models st !! "logistic_regression").

(** A meal like [wheat_meal], entered in capitals. *)
Definition shouting_meal : Meal.t :=
  {| Meal.id := 1;
     Meal.food := {| Food.category := Some "gluten";
                     Food.ingredients := Some "WHOLE WHEAT FLOUR, WATER, YEAST";
                     Food.allergens := Some "GLUTEN" |};
     Meal.quantity := None;
     Meal.meal_time := 1700000000%Z;
     Meal.notes := None |}.

(** The engine a successful [train_models] leaves behind (lines
    145-157): both classifiers stored with their accuracies, the scaler
    fitted on the training partition, the flag set. *)
Definition trained_engine (st : engine) (fitted : StandardScaler.stats)
    (rf_model : classifier) (rf_score : Q) (lr_model : classifier) (lr_score : Q)
  : engine :=
  {| model_path := model_path st;
     models :=
       <["logistic_regression" :=
           {| model := lr_model; accuracy := Some lr_score;
              type := "Logistic Regression" |}]>
       (<["random_forest" :=
           {| model := rf_model; accuracy := Some rf_score;
              type := "Random Forest" |}]> (models st));
     label_encoders := label_encoders st;
     scaler := Some fitted;
     is_trained := true |}.

(** [train_models] takes its early exit: fewer than 10 rows, or no
    matrix, or no targets. *)
Definition too_little_data (X : option (list (list Q))) (y : option (list Z)) : Prop :=
  (from_option length 0%nat X < 10)%nat ∨ y = None.

(** A library whose logistic regression does not converge: its [fit]
    raises. *)
Definition failing_sklearn : Sklearn :=
  {| np_sqrt := fun v => v;
     np_float := fun _ => Raise (ValueError "could not convert string to float");
     train_test_split := fun X y => (drop 2 X, take 2 X, drop 2 y, take 2 y);
     RandomForestClassifier_fit := fun _ _ => Return (constant_classifier (3 # 4));
     LogisticRegression_fit := fun _ _ =>
       Raise (ValueError "This solver needs samples of at least 2 classes") |}.

(** Ten rows of one column, with their targets. *)
Definition ten_rows : list (list Q) := replicate 10 [1%Q].
Definition ten_targets : list Z := replicate 10 0%Z.

(** The texts of [_generate_recommendation]. *)
Definition dairy_advice : string :=
  "Consider dairy alternatives like almond milk or coconut yogurt.".
Definition gluten_advice : string :=
  "Try gluten-free alternatives like quinoa or rice.".
Definition spicy_advice : string :=
  "Consider milder versions or reduce spice levels.".
Definition generic_advice : string :=
  "Monitor your symptoms and consider avoiding this food category temporarily.".
Definition reassurance : string :=
  "This food appears safe for you based on current data.".

(** ** [get_feature_importance] *)

(** [rf_model.feature_importances_]: an attribute of the fitted forest,
    taken from the library as it is. *)
Class ForestAttributes : Type := {
  feature_importances_ : classifier -> list Q
}.

Definition feature_names : list string :=
  [ "food_category"; "meal_hour"; "meal_day_of_week"; "has_quantity";
    "quantity"; "has_notes"; "has_ingredients"; "has_dairy"; "has_gluten";
    "has_spicy"; "has_allergens"; "allergen_count"; "days_since_epoch" ].

(** [l.sort(key=lambda x: x[1], reverse=True)]: by importance, largest
    first; the sort is stable, so items of equal importance keep their
    order. *)
Fixpoint insert_by_importance (item : string * Q) (l : list (string * Q))
  : list (string * Q) :=
  match l with
  | [] => [item]
  | other :: rest =>
      if Qle_bool (snd other) (snd item) then item :: other :: rest
      else other :: insert_by_importance item rest
  end.

Definition sort_by_importance (l : list (string * Q)) : list (string * Q) :=
  foldr insert_by_importance [] l.

(** [get_feature_importance()]; [None] is Python's [None]. *)
Definition get_feature_importance `{ForestAttributes} (st : engine)
  : option (list (string * Q)) :=
  if negb (is_trained st) then None
  else
    match models st !! "random_forest" with
    | None => None
    | Some info =>
        let rf_model := model info in
        let importance := feature_importances_ rf_model in
        let feature_importance := zip feature_names importance in
        Some (sort_by_importance feature_importance)
    end.

(** [b] is ranked after [a]: its importance is not larger. *)
Definition ranked (a b : string * Q) : Prop := (snd b <= snd a)%Q.

(** A forest that puts all the weight on three features. *)
Definition example_forest : ForestAttributes :=
  {| feature_importances_ := fun _ =>
       [1 # 4; 0; 0; 0; 0; 0; 0; 1 # 2; 0; 1 # 4; 0; 0; 0]%Q |}.

(** The dictionary of a "dairy" meal that still carries its label. *)
Definition labelled_features : meal_features :=
  {| food_category := Some "dairy";
     meal_hour := 12; meal_day_of_week := 2; has_quantity := 1; quantity := 1%Q;
     has_notes := 0; has_ingredients := 1; has_dairy := 1; has_gluten := 0;
     has_spicy := 0; has_allergens := 0; allergen_count := 0;
     days_since_epoch := 19675; caused_symptoms := Some 1%Z |}.

(** * Properties *)

(** ** Evaluations *)

Example fit_example :
  LabelEncoder.classes_ (LabelEncoder.fit ["spicy"; "dairy"; "spicy"; "raw"])
  = ["dairy"; "raw"; "spicy"].
Proof. reflexivity. Qed.

Example wheat_meal_hour : meal_hour (features_of_meal ∅ wheat_meal) = 22%Z.
Proof. reflexivity. Qed.

Example title_random_forest :
  title (replace_char "_" " " "random_forest") = "Random Forest".
Proof. reflexivity. Qed.

Example join_default : os_path_join "data/models/" "scaler.pkl" = "data/models/scaler.pkl".
Proof. reflexivity. Qed.


(** ** The label encoder *)

Module LabelEncoderFacts.
Import LabelEncoder.

#[local] Instance str_lt_strict : StrictOrder str_lt := String_as_OT.lt_strorder.

Lemma compare_Eq (a b : string) : String_as_OT.compare a b = Eq -> a = b.
Proof. destruct (String_as_OT.compare_spec a b); congruence. Qed.

Lemma compare_Gt (a b : string) : String_as_OT.compare a b = Gt -> str_lt b a.
Proof. destruct (String_as_OT.compare_spec a b); congruence. Qed.

Lemma elem_of_insert_unique (v x : string) (l : list string) :
  x ∈ insert_unique v l ↔ x = v ∨ x ∈ l.
Proof.
  induction l as [|y l IH]; simpl.
  - rewrite list_elem_of_singleton, elem_of_nil. tauto.
  - destruct (String_as_OT.compare v y) eqn:E.
    + apply compare_Eq in E as ->. rewrite elem_of_cons. tauto.
    + rewrite !elem_of_cons. tauto.
    + rewrite !elem_of_cons, IH. tauto.
Qed.

Lemma elem_of_sorted_set (x : string) (values : list string) :
  x ∈ sorted_set values ↔ x ∈ values.
Proof.
  induction values as [|v values IH]; simpl; [done|].
  rewrite elem_of_insert_unique, elem_of_cons, IH. tauto.
Qed.

Lemma insert_unique_sorted (v : string) (l : list string) :
  StronglySorted str_lt l -> StronglySorted str_lt (insert_unique v l).
Proof.
  induction l as [|y l IH]; simpl; intros Hs.
  - repeat constructor.
  - apply StronglySorted_cons in Hs as [Hy Hl].
    destruct (String_as_OT.compare v y) eqn:E.
    + by apply StronglySorted_cons.
    + apply StronglySorted_cons. split; [|by apply StronglySorted_cons].
      constructor; [exact E|].
      eapply Forall_impl; [exact Hy|]. intros z Hz. by transitivity y.
    + apply StronglySorted_cons. split; [|by apply IH].
      apply Forall_forall. intros z Hz.
      apply elem_of_insert_unique in Hz as [->|Hz].
      * by apply compare_Gt.
      * by eapply Forall_forall in Hy.
Qed.

Lemma sorted_set_sorted (values : list string) :
  StronglySorted str_lt (sorted_set values).
Proof.
  induction values; simpl; [constructor | by apply insert_unique_sorted].
Qed.

Lemma index_of_Some (v : string) (l : list string) (i : nat) :
  index_of v l = Some i -> l !! i = Some v.
Proof.
  revert i. induction l as [|x l IH]; simpl; intros i; [done|].
  destruct (String.eqb_spec v x) as [->|Hne].
  - by intros [= <-].
  - destruct (index_of v l) as [j|]; simpl; [|done].
    intros [= <-]. by apply IH.
Qed.

Lemma index_of_None (v : string) (l : list string) :
  index_of v l = None ↔ v ∉ l.
Proof.
  induction l as [|x l IH]; simpl.
  - split; [intros _; apply not_elem_of_nil | done].
  - rewrite not_elem_of_cons.
    destruct (String.eqb_spec v x) as [->|Hne].
    + split; [done | tauto].
    + destruct (index_of v l); simpl; split; try done; try tauto.
      intros [_ Hn]. by apply IH in Hn.
Qed.

Lemma index_of_elem (v : string) (l : list string) :
  v ∈ l -> ∃ i, index_of v l = Some i.
Proof.
  intros Hin. destruct (index_of v l) as [i|] eqn:E; [by exists i|].
  by apply index_of_None in E.
Qed.

(** In a strictly sorted list, positions and values are ordered alike. *)
Lemma sorted_lookup_lt (l : list string) (i j : nat) (a b : string) :
  StronglySorted str_lt l -> l !! i = Some a -> l !! j = Some b ->
  (i < j)%nat -> str_lt a b.
Proof.
  revert i j. induction l as [|x l IH]; intros i j Hs Hi Hj Hlt; [done|].
  apply StronglySorted_cons in Hs as [Hx Hl].
  destruct i as [|i], j as [|j]; simpl in *; try lia.
  - injection Hi as ->. eapply Forall_forall in Hx; [exact Hx|].
    by eapply list_elem_of_lookup_2.
  - eapply IH; eauto. lia.
Qed.

Lemma sorted_lookup_iff (l : list string) (i j : nat) (a b : string) :
  StronglySorted str_lt l -> l !! i = Some a -> l !! j = Some b ->
  (i < j)%nat ↔ str_lt a b.
Proof.
  intros Hs Hi Hj. split; [by eapply sorted_lookup_lt|].
  intros Hab. destruct (Nat.lt_trichotomy i j) as [?|[->|Hji]]; [done| |].
  - rewrite Hi in Hj. injection Hj as ->.
    exfalso. by eapply (irreflexivity str_lt b).
  - pose proof (sorted_lookup_lt _ _ _ _ _ Hs Hj Hi Hji) as Hba.
    exfalso. eapply (irreflexivity str_lt a). by transitivity b.
Qed.

Lemma transform_one_Return (le : t) (v : string) (c : nat) :
  transform_one le v = Return c -> classes_ le !! c = Some v.
Proof.
  unfold transform_one. destruct (index_of v (classes_ le)) eqn:E; [|done].
  intros [= <-]. by apply index_of_Some.
Qed.

Lemma transform_one_seen (values : list string) (v : string) :
  v ∈ values -> ∃ c, transform_one (fit values) v = Return c.
Proof.
  intros Hin. unfold transform_one, fit; simpl.
  destruct (index_of_elem v (sorted_set values)) as [i ->]; [|by exists i].
  by apply elem_of_sorted_set.
Qed.

Lemma transform_one_unseen (values : list string) (v : string) :
  v ∉ values ->
  transform_one (fit values) v = Raise (ValueError "y contains previously unseen labels").
Proof.
  intros Hn. unfold transform_one, fit; simpl.
  assert (index_of v (sorted_set values) = None) as ->; [|done].
  apply index_of_None. by rewrite elem_of_sorted_set.
Qed.

(** The codes [fit_transform] writes into the frame are the ones
    [transform] gives afterwards. *)
Lemma fit_transform_codes (le : t) (values : list string) :
  Forall (fun v => v ∈ classes_ le) values ->
  transform le values = Return (omap (fun v => index_of v (classes_ le)) values).
Proof.
  induction 1 as [|v values Hv _ IH]; simpl; [done|].
  unfold transform_one. destruct (index_of_elem v (classes_ le) Hv) as [i ->].
  simpl. unfold mbind, outcome_bind at 1. rewrite IH. done.
Qed.

End LabelEncoderFacts.

(** C7, as the code has it: [fit] gives every value it was shown a code,
    distinct values get distinct codes, the codes follow the sorted
    order of the values (not the order of first appearance), a value it
    was not shown gets none, and [transform] returns exactly the codes
    that [fit_transform] wrote at fit time. *)
Theorem label_encoder_codes_sorted (values : list string) :
  let le := LabelEncoder.fit values in
  (∀ v, v ∈ values -> ∃ c, LabelEncoder.transform_one le v = Return c) ∧
  (∀ v, v ∉ values -> ∃ e, LabelEncoder.transform_one le v = Raise e) ∧
  (∀ v1 v2 c1 c2,
     LabelEncoder.transform_one le v1 = Return c1 ->
     LabelEncoder.transform_one le v2 = Return c2 ->
     (c1 = c2 ↔ v1 = v2) ∧ ((c1 < c2)%nat ↔ LabelEncoder.str_lt v1 v2)) ∧
  LabelEncoder.transform le values = Return (snd (LabelEncoder.fit_transform values)).
Proof.
  intros le. repeat split.
  - apply LabelEncoderFacts.transform_one_seen.
  - intros v Hv. eexists. by apply LabelEncoderFacts.transform_one_unseen.
  - intros ->. apply LabelEncoderFacts.transform_one_Return in H, H0. congruence.
  - intros ->. congruence.
  - apply LabelEncoderFacts.transform_one_Return in H, H0.
    eapply LabelEncoderFacts.sorted_lookup_iff; eauto.
    apply LabelEncoderFacts.sorted_set_sorted.
  - apply LabelEncoderFacts.transform_one_Return in H, H0.
    eapply LabelEncoderFacts.sorted_lookup_iff; eauto.
    apply LabelEncoderFacts.sorted_set_sorted.
  - apply LabelEncoderFacts.fit_transform_codes, Forall_forall.
    intros v Hv. by apply LabelEncoderFacts.elem_of_sorted_set.
Qed.

(** C7 as stated fails: after fitting on "spicy" then "dairy", the value
    seen first has code 1, not 0. *)
Lemma first_seen_order_refuted :
  ¬ (∀ values v c,
       LabelEncoder.transform_one (LabelEncoder.fit values) v = Return c ->
       first_seen_code values v = Some c).
Proof.
  intros Hclaim.
  specialize (Hclaim ["spicy"; "dairy"] "spicy" 1%nat eq_refl).
  discriminate Hclaim.
Qed.

(** ** The ingredient features *)








Lemma ingredient_features_spec (ingredients : option string) :
  let text := lower (default "" ingredients) in
  ingredient_features ingredients =
    (flag (truthy_str ingredients),
     flag (any_in dairy_words text),
     flag (any_in gluten_words text),
     flag (any_in spicy_words text)).
Proof.
  destruct ingredients as [[|c s]|]; try reflexivity.
Qed.


(** ** Prediction *)

Section Prediction.

Context `{Sklearn}.

Lemma above_half_iff (x : Q) : above_half x = true ↔ (1 # 2 < x)%Q.
Proof.
  unfold above_half. rewrite negb_true_iff, <- not_true_iff_false, Qle_bool_iff.
  split; [apply Qnot_le_lt | apply Qlt_not_le].
Qed.

Lemma max2_Qmax (p : Q * Q) : (max2 p == Qmax (fst p) (snd p))%Q.
Proof.
  unfold max2. destruct (Qle_bool (snd p) (fst p)) eqn:E.
  - apply Qle_bool_iff in E. symmetry. by apply Q.max_l.
  - symmetry. apply Q.max_r. apply Qlt_le_weak, Qnot_le_lt.
    intros Hle. apply Qle_bool_iff in Hle. congruence.
Qed.

Lemma max2_bounds (p : Q * Q) :
  distribution p -> (1 # 2 <= max2 p)%Q ∧ (max2 p <= 1)%Q.
Proof.
  intros (H0 & H1 & Hs). unfold max2.
  destruct (Qle_bool (snd p) (fst p)) eqn:E.
  - apply Qle_bool_iff in E. split; lra.
  - assert (fst p < snd p)%Q.
    { apply Qnot_le_lt. intros Hle. apply Qle_bool_iff in Hle. congruence. }
    split; lra.
Qed.

(** What [predict_symptoms] computes once the row is encoded and scaled
    and both classifiers are in [self.models]. *)
Lemma predict_symptoms_trained (st : engine) (mf : meal_features)
    (row x : list Q) (rf lr : model_info) :
  is_trained st = true ->
  encode_row st mf = Return row ->
  StandardScaler.transform_row (scaler st) row = Return x ->
  models st !! "random_forest" = Some rf ->
  models st !! "logistic_regression" = Some lr ->
  let rf_pred := predict_proba (model rf) x in
  let lr_pred := predict_proba (model lr) x in
  let ensemble_prob :=
    (((fst rf_pred + fst lr_pred) / 2)%Q, ((snd rf_pred + snd lr_pred) / 2)%Q) in
  let likely := above_half (snd ensemble_prob) in
  predict_symptoms st mf =
    Return
      {| prediction := if likely then "Likely to cause symptoms"
                       else "Unlikely to cause symptoms";
         confidence := max2 ensemble_prob;
         recommendation :=
           _generate_recommendation mf (if likely then 1%Z else 0%Z) (max2 ensemble_prob);
         model_details := Some
           {| random_forest :=
                {| detail_prediction := if above_half (snd rf_pred) then "Likely" else "Unlikely";
                   detail_confidence := max2 rf_pred |};
              logistic_regression :=
                {| detail_prediction := if above_half (snd lr_pred) then "Likely" else "Unlikely";
                   detail_confidence := max2 lr_pred |} |} |}.
Proof.
  intros Ht Hrow Hx Hrf Hlr. unfold predict_symptoms, models_getitem.
  rewrite Ht, Hrow. simpl. rewrite Hx. simpl. rewrite Hrf. simpl. rewrite Hlr. simpl.
  by destruct (above_half _).
Qed.

(** C3: an engine whose trained flag is false returns the "Model not
    trained" dictionary with confidence 0; it is returned, not raised,
    and its recommendation is the fixed text, which is none of the
    texts the recommendation rules produce. *)
Theorem untrained_prediction (st : engine) (mf : meal_features) :
  is_trained st = false ->
  predict_symptoms st mf =
    Return {| prediction := "Model not trained";
              confidence := 0;
              recommendation := "Need more data to make predictions";
              model_details := None |}
  ∧ ∀ mf' pred conf,
      _generate_recommendation mf' pred conf ≠ "Need more data to make predictions".
Proof.
  intros Ht. split.
  - unfold predict_symptoms. by rewrite Ht.
  - intros mf' pred conf. unfold _generate_recommendation.
    repeat case_match; discriminate.
Qed.

(** C2, as the code has it: on a trained engine, a category that is not
    among the classes of the stored encoder makes [predict_symptoms]
    raise the encoder's [ValueError]; the encoder gives the value no
    code, and nothing is returned. *)
Theorem unseen_category_raises (st : engine) (le : LabelEncoder.t) (mf : meal_features) :
  is_trained st = true ->
  label_encoders st !! "food_category" = Some le ->
  py_str (food_category mf) ∉ LabelEncoder.classes_ le ->
  predict_symptoms st mf = Raise (ValueError "y contains previously unseen labels")
  ∧ (∀ c, LabelEncoder.transform_one le (py_str (food_category mf)) ≠ Return c).
Proof.
  intros Ht Hle Hv.
  apply LabelEncoderFacts.index_of_None in Hv.
  split.
  - unfold predict_symptoms, encode_row, LabelEncoder.transform_one.
    rewrite Ht, Hle, Hv. reflexivity.
  - intros c. unfold LabelEncoder.transform_one. by rewrite Hv.
Qed.

(** C6: with the row encoded and scaled and both classifiers stored, the
    label is the "likely" one exactly when the mean of the two class-1
    probabilities exceeds 1/2, and the confidence is the larger entry
    of the averaged distribution. *)
Theorem ensemble_label_and_confidence (st : engine) (mf : meal_features)
    (row x : list Q) (rf lr : model_info) :
  is_trained st = true ->
  encode_row st mf = Return row ->
  StandardScaler.transform_row (scaler st) row = Return x ->
  models st !! "random_forest" = Some rf ->
  models st !! "logistic_regression" = Some lr ->
  let rf_pred := predict_proba (model rf) x in
  let lr_pred := predict_proba (model lr) x in
  let p0 := ((fst rf_pred + fst lr_pred) / 2)%Q in
  let p1 := ((snd rf_pred + snd lr_pred) / 2)%Q in
  ∃ r, predict_symptoms st mf = Return r
    ∧ (prediction r = "Likely to cause symptoms" ↔ (1 # 2 < p1)%Q)
    ∧ (prediction r = "Unlikely to cause symptoms" ↔ ¬ (1 # 2 < p1)%Q)
    ∧ (confidence r == Qmax p0 p1)%Q.
Proof.
  intros Ht Hrow Hx Hrf Hlr rf_pred lr_pred p0 p1.
  eexists. split; [by eapply predict_symptoms_trained|].
  cbn [prediction confidence fst snd].
  fold rf_pred lr_pred. fold p0 p1.
  rewrite <- above_half_iff.
  split; [|split].
  - destruct (above_half p1); split; done.
  - destruct (above_half p1); split; try done. all: intros Hn; by destruct Hn.
  - apply (max2_Qmax (p0, p1)).
Qed.

(** C10: when both classifiers give distributions, the confidence of the
    ensemble and the confidence of each classifier lie between 1/2
    and 1. *)
Theorem confidence_at_least_half (st : engine) (mf : meal_features)
    (row x : list Q) (rf lr : model_info) :
  is_trained st = true ->
  encode_row st mf = Return row ->
  StandardScaler.transform_row (scaler st) row = Return x ->
  models st !! "random_forest" = Some rf ->
  models st !! "logistic_regression" = Some lr ->
  distribution (predict_proba (model rf) x) ->
  distribution (predict_proba (model lr) x) ->
  ∃ r d, predict_symptoms st mf = Return r
    ∧ model_details r = Some d
    ∧ (1 # 2 <= confidence r <= 1)%Q
    ∧ (1 # 2 <= detail_confidence (random_forest d) <= 1)%Q
    ∧ (1 # 2 <= detail_confidence (logistic_regression d) <= 1)%Q.
Proof.
  intros Ht Hrow Hx Hrf Hlr Drf Dlr.
  eexists _, _. split; [by eapply predict_symptoms_trained|].
  split; [reflexivity|].
  cbn [confidence detail_confidence random_forest logistic_regression].
  split; [|split]; try by apply max2_bounds.
  apply max2_bounds. destruct Drf as (?&?&?), Dlr as (?&?&?).
  unfold distribution. cbn [fst snd]. unfold Qdiv. change (/ 2)%Q with (1 # 2)%Q.
  repeat split; lra.
Qed.

End Prediction.

Lemma untrained_prediction_witness :
  is_trained (__init__ "data/models/") = false ∧
  (@predict_symptoms example_sklearn (__init__ "data/models/") (example_features "spicy") =
     Return {| prediction := "Model not trained";
               confidence := 0;
               recommendation := "Need more data to make predictions";
               model_details := None |}
   ∧ ∀ mf' pred conf,
       _generate_recommendation mf' pred conf ≠ "Need more data to make predictions").
Proof.
  split; [reflexivity|].
  apply (@untrained_prediction example_sklearn (__init__ "data/models/")
           (example_features "spicy")).
  reflexivity.
Defined.

Lemma unseen_category_raises_witness :
  is_trained example_engine = true ∧
  label_encoders example_engine !! "food_category" = Some (LabelEncoder.fit ["dairy"]) ∧
  ("spicy" ∉ LabelEncoder.classes_ (LabelEncoder.fit ["dairy"])) ∧
  (@predict_symptoms example_sklearn example_engine (example_features "spicy") =
     Raise (ValueError "y contains previously unseen labels")
   ∧ ∀ c, LabelEncoder.transform_one (LabelEncoder.fit ["dairy"]) "spicy" ≠ Return c).
Proof.
  assert ("spicy" ∉ LabelEncoder.classes_ (LabelEncoder.fit ["dairy"])) as Hnew.
  { apply (bool_decide_unpack _). vm_compute. reflexivity. }
  split; [reflexivity|]. split; [vm_compute; reflexivity|]. split; [exact Hnew|].
  apply (@unseen_category_raises example_sklearn example_engine
           (LabelEncoder.fit ["dairy"]) (example_features "spicy"));
    [reflexivity | vm_compute; reflexivity | exact Hnew].
Defined.

(** C2 as stated fails: with the encoder fitted on "dairy" alone, the
    prediction for a "spicy" meal is an exception leaving
    [predict_symptoms], not a returned value. *)
Lemma unseen_category_not_returned :
  @predict_symptoms example_sklearn example_engine (example_features "spicy") =
    Raise (ValueError "y contains previously unseen labels")
  ∧ ¬ ∃ r, @predict_symptoms example_sklearn example_engine (example_features "spicy") =
             Return r.
Proof.
  assert (@predict_symptoms example_sklearn example_engine (example_features "spicy") =
            Raise (ValueError "y contains previously unseen labels")) as E.
  { vm_compute. reflexivity. }
  split; [exact E|]. intros [r Hr]. rewrite E in Hr. discriminate Hr.
Qed.

Lemma ensemble_label_and_confidence_witness :
  ∃ r, @predict_symptoms example_sklearn example_engine (example_features "dairy") = Return r
    ∧ (prediction r = "Likely to cause symptoms" ↔ (1 # 2 < ((7 # 8) + (1 # 4)) / 2)%Q)
    ∧ (prediction r = "Unlikely to cause symptoms" ↔ ¬ (1 # 2 < ((7 # 8) + (1 # 4)) / 2)%Q)
    ∧ (confidence r == Qmax (((1 - (7 # 8)) + (1 - (1 # 4))) / 2) (((7 # 8) + (1 # 4)) / 2))%Q.
Proof.
  apply (@ensemble_label_and_confidence example_sklearn example_engine
           (example_features "dairy") example_row example_scaled example_rf example_lr);
    vm_compute; reflexivity.
Defined.

Lemma confidence_at_least_half_witness :
  distribution (predict_proba (model example_rf) example_scaled) ∧
  distribution (predict_proba (model example_lr) example_scaled) ∧
  ∃ r d, @predict_symptoms example_sklearn example_engine (example_features "dairy") = Return r
    ∧ model_details r = Some d
    ∧ (1 # 2 <= confidence r <= 1)%Q
    ∧ (1 # 2 <= detail_confidence (random_forest d) <= 1)%Q
    ∧ (1 # 2 <= detail_confidence (logistic_regression d) <= 1)%Q.
Proof.
  assert (distribution (predict_proba (model example_rf) example_scaled)) as Drf.
  { repeat split; vm_compute; congruence. }
  assert (distribution (predict_proba (model example_lr) example_scaled)) as Dlr.
  { repeat split; vm_compute; congruence. }
  split; [exact Drf|]. split; [exact Dlr|].
  apply (@confidence_at_least_half example_sklearn example_engine
           (example_features "dairy") example_row example_scaled example_rf example_lr);
    [vm_compute; reflexivity .. | exact Drf | exact Dlr].
Defined.

(** ** The scaler *)

Module StandardScalerFacts.
Import StandardScaler.

Local Open Scope Q_scope.







Section Fit.

Context `{Sklearn}.



End Fit.



End StandardScalerFacts.




(** ** Training with too few meals *)

Section Training.

Context `{Sklearn}.

Lemma food_category_of_meal (meal_symptoms : gset Z) (meal : Meal.t) :
  food_category (features_of_meal meal_symptoms meal) = Food.category (Meal.food meal).
Proof.
  unfold features_of_meal.
  destruct (ingredient_features _) as [[[? ?] ?] ?], (allergen_features _) as [? ?].
  reflexivity.
Qed.

Lemma categories_of_features (meal_symptoms : gset Z) (meals_data : list Meal.t) :
  (fun mf => py_str (food_category mf)) <$> (features_of_meal meal_symptoms <$> meals_data)
  = categories meals_data.
Proof.
  unfold categories. rewrite <- list_fmap_compose. apply list_fmap_ext.
  intros i meal _. simpl. by rewrite food_category_of_meal.
Qed.

Lemma omap_index_of_length (l values : list string) :
  Forall (fun v => v ∈ l) values ->
  length (omap (fun v => LabelEncoder.index_of v l) values) = length values.
Proof.
  induction 1 as [|v vs Hv _ IH]; [done|].
  destruct (LabelEncoderFacts.index_of_elem _ _ Hv) as [i Hi].
  simpl. rewrite Hi. simpl. f_equal. exact IH.
Qed.

Lemma fit_transform_length (values : list string) :
  length (snd (LabelEncoder.fit_transform values)) = length values.
Proof.
  unfold LabelEncoder.fit_transform. cbn [snd].
  apply omap_index_of_length, Forall_forall.
  intros v Hv. by apply LabelEncoderFacts.elem_of_sorted_set.
Qed.

(** What [prepare_features] does on a history that is not empty. *)
Lemma prepare_features_nonempty (st : engine) (meals_data : list Meal.t)
    (symptoms_data : list Symptom.t) :
  meals_data ≠ [] ->
  ∃ X y,
    prepare_features st meals_data symptoms_data =
      (set_label_encoders
         (<["food_category" := LabelEncoder.fit (categories meals_data)]> (label_encoders st))
         st,
       (Some X, Some y))
    ∧ length X = length meals_data.
Proof.
  destruct meals_data as [|meal meals_data]; [done|]. intros _.
  unfold prepare_features.
  set (features := features_of_meal (symptom_meal_ids symptoms_data) <$> meal :: meals_data).
  pose proof (categories_of_features (symptom_meal_ids symptoms_data) (meal :: meals_data)) as Hc.
  fold features in Hc. rewrite Hc.
  pose proof (fit_transform_length (categories (meal :: meals_data))) as Hlen.
  destruct (LabelEncoder.fit_transform (categories (meal :: meals_data))) as [le codes] eqn:E.
  assert (le = LabelEncoder.fit (categories (meal :: meals_data))) as ->.
  { unfold LabelEncoder.fit_transform in E. by injection E as <- _. }
  eexists _, _. split; [reflexivity|].
  rewrite length_zip_with. cbn [snd] in Hlen. rewrite Hlen.
  unfold features, categories. rewrite !length_fmap. lia.
Qed.

Lemma train_models_short (st : engine) (disk : gmap string artifact)
    (X : option (list (list Q))) (y : option (list Z)) :
  (from_option length 0%nat X < 10)%nat ->
  train_models st disk X y = (st, disk, Return false).
Proof.
  intros Hlen. unfold train_models.
  destruct X as [X|], y as [y|]; try reflexivity.
  simpl in Hlen. apply Nat.ltb_lt in Hlen. by rewrite Hlen.
Qed.

(** C1, as the code has it: with fewer than 10 meals the training
    request returns [False] and leaves the model directory, the models,
    the scaler and the trained flag as they were, and [train_models]
    itself changes nothing at all; but [prepare_features], run first on
    a history that is not empty, has replaced the ['food_category']
    entry of the encoder table by an encoder fitted on that history. *)
Theorem insufficient_data (st : engine) (disk : gmap string artifact)
    (meals_data : list Meal.t) (symptoms_data : list Symptom.t) :
  (length meals_data < 10)%nat ->
  let st1 := fst (prepare_features st meals_data symptoms_data) in
  train st disk meals_data symptoms_data = (st1, disk, Return false)
  ∧ models st1 = models st
  ∧ scaler st1 = scaler st
  ∧ is_trained st1 = is_trained st
  ∧ label_encoders st1 =
      match meals_data with
      | [] => label_encoders st
      | _ :: _ =>
          <["food_category" := LabelEncoder.fit (categories meals_data)]> (label_encoders st)
      end
  ∧ (∀ X y, (from_option length 0%nat X < 10)%nat ->
            train_models st disk X y = (st, disk, Return false)).
Proof.
  intros Hlen st1. subst st1. unfold train.
  destruct meals_data as [|meal meals_data].
  - repeat split; auto using train_models_short.
  - destruct (prepare_features_nonempty st (meal :: meals_data) symptoms_data)
      as (X & y & -> & HX); [done|].
    cbn [fst].
    split; [apply train_models_short; simpl in *; lia|].
    repeat split; auto using train_models_short.
Qed.

End Training.

Lemma insufficient_data_witness :
  let st1 := fst (prepare_features example_engine [wheat_meal] []) in
  @train example_sklearn example_engine ∅ [wheat_meal] [] = (st1, ∅, Return false)
  ∧ models st1 = models example_engine
  ∧ scaler st1 = scaler example_engine
  ∧ is_trained st1 = is_trained example_engine
  ∧ label_encoders st1 =
      <["food_category" := LabelEncoder.fit (categories [wheat_meal])]>
        (label_encoders example_engine)
  ∧ (∀ X y, (from_option length 0%nat X < 10)%nat ->
            @train_models example_sklearn example_engine ∅ X y =
              (example_engine, ∅, Return false)).
Proof.
  apply (@insufficient_data example_sklearn example_engine ∅ [wheat_meal] []).
  simpl. lia.
Defined.

(** C1 as stated fails: a training request with one "gluten" meal, made
    on an engine trained on "dairy", returns [False] and leaves the
    engine with another encoder table. *)
Lemma failed_training_replaces_encoder :
  snd (@train example_sklearn example_engine ∅ [wheat_meal] []) = Return false
  ∧ label_encoders (fst (fst (@train example_sklearn example_engine ∅ [wheat_meal] [])))
    ≠ label_encoders example_engine.
Proof.
  split; [vm_compute; reflexivity|].
  intros Heq.
  apply (f_equal (fun m => LabelEncoder.classes_ <$> m !! "food_category")) in Heq.
  vm_compute in Heq. discriminate Heq.
Qed.

(** ** Loading *)

(** C4 fails on the code.  With the logistic-regression artifact missing
    and the other three present, [load_models] on a new engine returns
    [True] and sets the trained flag with one classifier installed, and
    the next prediction raises [KeyError].  With a classifier artifact
    alone it returns [False] but has installed that classifier. *)
Theorem load_models_partial_bundle :
  partial_disk !! "data/models/logistic_regression.pkl" = None
  ∧ (let loaded := load_models (__init__ "data/models/") partial_disk in
     snd loaded = true
     ∧ is_trained (fst loaded) = true
     ∧ models (fst loaded) !! "logistic_regression" = None
     ∧ is_Some (models (fst loaded) !! "random_forest")
     ∧ @predict_symptoms example_sklearn (fst loaded) (example_features "dairy")
       = Raise (KeyError "logistic_regression"))
  ∧ (let loaded := load_models (__init__ "data/models/") classifier_only_disk in
     snd loaded = false
     ∧ is_trained (fst loaded) = false
     ∧ is_Some (models (fst loaded) !! "random_forest")).
Proof.
  split; [vm_compute; reflexivity|]. split.
  - cbv zeta. repeat split; try (vm_compute; reflexivity).
    vm_compute. eexists. reflexivity.
  - cbv zeta. repeat split; try (vm_compute; reflexivity).
    vm_compute. eexists. reflexivity.
Qed.

(** ** Saving and loading again *)

Section Persistence.

Context `{Sklearn}.

Lemma os_path_join_inj (a b b' : string) :
  String.prefix "/" b = false -> String.prefix "/" b' = false ->
  os_path_join a b = os_path_join a b' -> b = b'.
Proof.
  intros Hb Hb'. unfold os_path_join. rewrite Hb, Hb'.
  destruct (String.eqb a "" || ends_with_slash a); intros E.
  - by apply (inj (String.append a)) in E.
  - apply (inj (String.append a)) in E. by apply (inj (String.append "/")) in E.
Qed.

Lemma pkl_known_inj (st : engine) (name name' : string) :
  known name -> known name' -> pkl st name = pkl st name' -> name = name'.
Proof.
  unfold pkl. intros Hn Hn' E.
  apply os_path_join_inj in E.
  - destruct Hn as [-> | [-> | [-> | ->]]], Hn' as [-> | [-> | [-> | ->]]];
      first [reflexivity | vm_compute in E; discriminate E].
  - by destruct Hn as [-> | [-> | [-> | ->]]].
  - by destruct Hn' as [-> | [-> | [-> | ->]]].
Qed.

Lemma pkl_path (st st' : engine) (name : string) :
  model_path st = model_path st' -> pkl st name = pkl st' name.
Proof. unfold pkl. by intros ->. Qed.

Lemma save_loop_other (st : engine) (items : list (string * model_info))
    (disk : gmap string artifact) (file : string) :
  file ∉ (fun item => pkl st (fst item)) <$> items ->
  save_loop st disk items !! file = disk !! file.
Proof.
  revert disk. induction items as [|item items IH]; intros disk Hfile; [done|].
  rewrite fmap_cons, not_elem_of_cons in Hfile. destruct Hfile as [Hne Hfile].
  unfold save_loop in *. simpl. rewrite IH by done. by rewrite lookup_insert_ne.
Qed.

Lemma save_loop_in (st : engine) (items : list (string * model_info))
    (disk : gmap string artifact) (name : string) (info : model_info) :
  NoDup ((fun item => pkl st (fst item)) <$> items) ->
  (name, info) ∈ items ->
  save_loop st disk items !! pkl st name = Some (PickledModel (model info)).
Proof.
  revert disk. induction items as [|item items IH]; intros disk Hnd Hin.
  - by apply elem_of_nil in Hin.
  - rewrite fmap_cons in Hnd. apply NoDup_cons in Hnd as [Hfresh Hnd].
    apply elem_of_cons in Hin as [<-|Hin].
    + change (save_loop st disk ((name, info) :: items))
        with (save_loop st (<[pkl st name := PickledModel (model info)]> disk) items).
      rewrite save_loop_other by exact Hfresh. apply lookup_insert_eq.
    + apply (IH _ Hnd Hin).
Qed.

Lemma save_models_lookup (st : engine) (disk : gmap string artifact) (rf lr : model_info) :
  is_trained st = true ->
  models st !! "random_forest" = Some rf ->
  models st !! "logistic_regression" = Some lr ->
  (∀ name, is_Some (models st !! name) ->
           name = "random_forest" ∨ name = "logistic_regression") ->
  save_models st disk !! pkl st "random_forest" = Some (PickledModel (model rf))
  ∧ save_models st disk !! pkl st "logistic_regression" = Some (PickledModel (model lr))
  ∧ save_models st disk !! pkl st "scaler" = Some (PickledScaler (scaler st))
  ∧ save_models st disk !! pkl st "encoders" = Some (PickledEncoders (label_encoders st)).
Proof.
  intros Ht Hrf Hlr Hdom. unfold save_models. rewrite Ht. cbn [negb].
  assert (∀ n n', known n -> known n' -> n ≠ n' -> pkl st n ≠ pkl st n') as Hne.
  { intros n n' Hn Hn' Hd E. by apply Hd, (pkl_known_inj st). }
  assert (NoDup ((fun item => pkl st (fst item)) <$> map_to_list (models st))) as Hnd.
  { apply NoDup_fmap_2_strong; [|apply NoDup_map_to_list].
    intros [n i] [n' i'] Hi Hi' E. cbn [fst] in E.
    apply elem_of_map_to_list in Hi, Hi'.
    assert (n = n') as <-.
    { apply (pkl_known_inj st); [| |exact E].
      - destruct (Hdom n) as [->| ->]; [by eexists|unfold known; auto..].
      - destruct (Hdom n') as [->| ->]; [by eexists|unfold known; auto..]. }
    congruence. }
  split; [|split; [|split]].
  - rewrite !lookup_insert_ne by (apply Hne; unfold known; auto; discriminate).
    apply save_loop_in; [exact Hnd | by apply elem_of_map_to_list].
  - rewrite !lookup_insert_ne by (apply Hne; unfold known; auto; discriminate).
    apply save_loop_in; [exact Hnd | by apply elem_of_map_to_list].
  - rewrite lookup_insert_ne by (apply Hne; unfold known; auto; discriminate).
    apply lookup_insert_eq.
  - apply lookup_insert_eq.
Qed.

Lemma exists_None (disk : gmap string artifact) (file : string) :
  disk !! file = None -> exists_ disk file = false.
Proof.
  intros E. unfold exists_. rewrite E. apply bool_decide_eq_false. by intros [? ?].
Qed.

Lemma exists_Some (disk : gmap string artifact) (file : string) (a : artifact) :
  disk !! file = Some a -> exists_ disk file = true.
Proof. intros E. unfold exists_. rewrite E. by apply bool_decide_eq_true. Qed.

(** [load_models] on a directory that holds the four artifacts. *)
Lemma load_models_complete (st0 : engine) (disk : gmap string artifact)
    (rf lr : classifier) (s : StandardScaler.t) (e : gmap string LabelEncoder.t) :
  disk !! pkl st0 "random_forest" = Some (PickledModel rf) ->
  disk !! pkl st0 "logistic_regression" = Some (PickledModel lr) ->
  disk !! pkl st0 "scaler" = Some (PickledScaler s) ->
  disk !! pkl st0 "encoders" = Some (PickledEncoders e) ->
  ∃ st', load_models st0 disk = (st', true)
    ∧ is_trained st' = true
    ∧ scaler st' = s
    ∧ label_encoders st' = e
    ∧ model <$> models st' !! "random_forest" = Some rf
    ∧ model <$> models st' !! "logistic_regression" = Some lr.
Proof.
  intros Hrf Hlr Hs He. unfold load_models, load_model.
  rewrite (exists_Some _ _ _ Hrf). unfold load_classifier at 1. rewrite Hrf.
  match goal with |- context [exists_ disk (pkl ?st "logistic_regression")] =>
    change (pkl st "logistic_regression") with (pkl st0 "logistic_regression") end.
  rewrite (exists_Some _ _ _ Hlr). unfold load_classifier. rewrite Hlr.
  match goal with |- context [exists_ disk (pkl ?st "scaler")] =>
    change (pkl st "scaler") with (pkl st0 "scaler");
    change (pkl st "encoders") with (pkl st0 "encoders") end.
  rewrite (exists_Some _ _ _ Hs), (exists_Some _ _ _ He). cbn [andb].
  unfold load_scaler. rewrite Hs.
  match goal with |- context [load_encoders disk (pkl ?st "encoders")] =>
    change (pkl st "encoders") with (pkl st0 "encoders") end.
  unfold load_encoders. rewrite He.
  eexists. split; [reflexivity|]. cbn.
  repeat split.
  - rewrite lookup_insert_ne by discriminate. by rewrite lookup_insert_eq.
  - by rewrite lookup_insert_eq.
Qed.

Lemma outcome_bind_ext {A B} (m : outcome A) (k k' : A -> outcome B) :
  (∀ a, k a = k' a) -> m ≫= k = m ≫= k'.
Proof. intros E. destruct m; [apply E | reflexivity]. Qed.

(** [predict_symptoms] reads the flag, the encoder of the category, the
    scaler and the two fitted classifiers, and nothing else. *)
Lemma predict_symptoms_ext (st st' : engine) (mf : meal_features) :
  is_trained st' = is_trained st ->
  label_encoders st' !! "food_category" = label_encoders st !! "food_category" ->
  scaler st' = scaler st ->
  model <$> models st' !! "random_forest" = model <$> models st !! "random_forest" ->
  model <$> models st' !! "logistic_regression"
    = model <$> models st !! "logistic_regression" ->
  predict_symptoms st' mf = predict_symptoms st mf.
Proof.
  intros Ht Hle Hs Hrf Hlr. unfold predict_symptoms, encode_row, models_getitem.
  rewrite Ht, Hle, Hs.
  destruct (is_trained st); [|done]. cbn [negb].
  apply outcome_bind_ext. intros df.
  apply outcome_bind_ext. intros X_scaled.
  destruct (models st' !! "random_forest") as [rf'|],
           (models st !! "random_forest") as [rf|]; try done.
  injection Hrf as Hrf. cbn. rewrite Hrf.
  destruct (models st' !! "logistic_regression") as [lr'|],
           (models st !! "logistic_regression") as [lr|]; try done.
  injection Hlr as Hlr. cbn. rewrite Hlr. done.
Qed.

(** C5: an engine that is trained and holds the two classifiers is
    saved, and the directory is loaded by an engine on the same path;
    the load succeeds and the loaded engine answers every input as the
    saved one does (with the same dictionary, or the same exception). *)
Theorem save_load_round_trip (st st0 : engine) (disk : gmap string artifact)
    (rf lr : model_info) :
  is_trained st = true ->
  models st !! "random_forest" = Some rf ->
  models st !! "logistic_regression" = Some lr ->
  (∀ name, is_Some (models st !! name) ->
           name = "random_forest" ∨ name = "logistic_regression") ->
  model_path st0 = model_path st ->
  let loaded := load_models st0 (save_models st disk) in
  snd loaded = true
  ∧ ∀ mf, predict_symptoms (fst loaded) mf = predict_symptoms st mf.
Proof.
  intros Ht Hrf Hlr Hdom Hpath loaded. subst loaded.
  destruct (save_models_lookup st disk rf lr Ht Hrf Hlr Hdom) as (Drf & Dlr & Ds & De).
  rewrite <- !(pkl_path st0 st _ Hpath) in *.
  destruct (load_models_complete st0 _ _ _ _ _ Drf Dlr Ds De)
    as (st' & -> & Ht' & Hs' & He' & Hrf' & Hlr').
  split; [reflexivity|]. intros mf. cbn [fst].
  apply predict_symptoms_ext; try congruence.
  - by rewrite Hrf', Hrf.
  - by rewrite Hlr', Hlr.
Qed.

End Persistence.

Lemma save_load_round_trip_witness :
  let loaded := load_models (__init__ "data/models/") (save_models example_engine ∅) in
  snd loaded = true
  ∧ ∀ mf, @predict_symptoms example_sklearn (fst loaded) mf
          = @predict_symptoms example_sklearn example_engine mf.
Proof.
  apply (@save_load_round_trip example_sklearn example_engine (__init__ "data/models/") ∅
           example_rf example_lr);
    [reflexivity | vm_compute; reflexivity | vm_compute; reflexivity | | reflexivity].
  intros name [info Hname]. unfold example_engine, example_models in Hname.
  cbn [models] in Hname.
  apply lookup_insert_Some in Hname as [[<- _]|[_ Hname]]; [by right|].
  apply lookup_insert_Some in Hname as [[<- _]|[_ Hname]]; [by left|].
  by rewrite lookup_empty in Hname.
Defined.

(** * Further properties of the engine *)

(** ** The features of one meal *)

Lemma allergen_features_spec (allergens : option string) :
  allergen_features allergens =
    (flag (truthy_str allergens),
     Z.of_nat (length (List.filter
                         (fun a => contains a (lower (default "" allergens)))
                         allergen_words))).
Proof. destruct allergens as [[|c s]|]; reflexivity. Qed.

Lemma features_of_meal_fields (meal_symptoms : gset Z) (meal : Meal.t) :
  let mf := features_of_meal meal_symptoms meal in
  (has_ingredients mf, has_dairy mf, has_gluten mf, has_spicy mf)
    = ingredient_features (Food.ingredients (Meal.food meal))
  ∧ (has_allergens mf, allergen_count mf)
    = allergen_features (Food.allergens (Meal.food meal))
  ∧ food_category mf = Food.category (Meal.food meal)
  ∧ meal_hour mf = datetime.hour (Meal.meal_time meal)
  ∧ meal_day_of_week mf = datetime.weekday (Meal.meal_time meal)
  ∧ days_since_epoch mf = datetime.days_since_epoch (Meal.meal_time meal)
  ∧ has_quantity mf = flag (truthy_num (Meal.quantity meal))
  ∧ has_notes mf = flag (truthy_str (Meal.notes meal))
  ∧ quantity mf = (if truthy_num (Meal.quantity meal)
                   then default 0%Q (Meal.quantity meal) else 0%Q)
  ∧ caused_symptoms mf = Some (flag (bool_decide (Meal.id meal ∈ meal_symptoms))).
Proof.
  unfold features_of_meal.
  destruct (ingredient_features _) as [[[? ?] ?] ?], (allergen_features _) as [? ?].
  cbn. repeat split.
Qed.

Lemma flag_01 (b : bool) : flag b = 0%Z ∨ flag b = 1%Z.
Proof. destruct b; auto. Qed.

(** X5: every feature of a meal lies in its range: the hour in 0..23,
    the day of the week in 0..6, the presence flags in {0, 1}, the
    allergen count in 0..5; a meal without quantity has quantity 0, one
    without ingredients text has none of the ingredient flags, and one
    without allergens text has allergen count 0. *)
Theorem meal_feature_ranges (meal_symptoms : gset Z) (meal : Meal.t) :
  let mf := features_of_meal meal_symptoms meal in
  (0 <= meal_hour mf <= 23)%Z
  ∧ (0 <= meal_day_of_week mf <= 6)%Z
  ∧ (has_quantity mf = 0%Z ∨ has_quantity mf = 1%Z)
  ∧ (has_notes mf = 0%Z ∨ has_notes mf = 1%Z)
  ∧ (has_ingredients mf = 0%Z ∨ has_ingredients mf = 1%Z)
  ∧ (has_allergens mf = 0%Z ∨ has_allergens mf = 1%Z)
  ∧ (0 <= allergen_count mf <= 5)%Z
  ∧ (has_quantity mf = 0%Z -> quantity mf = 0%Q)
  ∧ (has_ingredients mf = 0%Z ->
     has_dairy mf = 0%Z ∧ has_gluten mf = 0%Z ∧ has_spicy mf = 0%Z)
  ∧ (has_allergens mf = 0%Z -> allergen_count mf = 0%Z).
Proof.
  intros mf.
  destruct (features_of_meal_fields meal_symptoms meal)
    as (Hi & Ha & _ & Hh & Hd & _ & Hq & Hn & Hqq & _).
  fold mf in Hi, Ha, Hh, Hd, Hq, Hn, Hqq.
  rewrite ingredient_features_spec in Hi. rewrite allergen_features_spec in Ha.
  injection Hi as Hi1 Hi2 Hi3 Hi4. injection Ha as Ha1 Ha2.
  rewrite Hh, Hd, Hq, Hn, Hqq, Hi1, Ha1, Ha2.
  split; [unfold datetime.hour; pose proof (Z.mod_pos_bound (Meal.meal_time meal `div` 3600) 24); lia|].
  split; [unfold datetime.weekday;
          pose proof (Z.mod_pos_bound (Meal.meal_time meal `div` 86400 + 3) 7); lia|].
  split; [apply flag_01|]. split; [apply flag_01|].
  split; [apply flag_01|]. split; [apply flag_01|].
  split.
  { clear. unfold allergen_words. cbn [List.filter].
    repeat (destruct (contains _ _)); cbn; lia. }
  split; [clear; by destruct (truthy_num _)|].
  split.
  - rewrite Hi2, Hi3, Hi4. clear.
    destruct (Food.ingredients (Meal.food meal)) as [[|c s]|]; intros Hp;
      [repeat split; reflexivity | cbn in Hp; discriminate Hp | repeat split; reflexivity].
  - clear.
    destruct (Food.allergens (Meal.food meal)) as [[|c s]|]; intros Hp;
      [reflexivity | cbn in Hp; discriminate Hp | reflexivity].
Qed.


Lemma lower_nonempty (a b : string) :
  lower a = lower b -> truthy_str (Some a) = truthy_str (Some b).
Proof. destruct a, b; simpl; congruence. Qed.

(** X7: the ingredient and allergen features do not see letter case: two
    meals that differ only in the case of these two texts have the same
    features. *)
Theorem features_ignore_case (meal_symptoms : gset Z) (meal meal' : Meal.t)
    (ingredients ingredients' allergens allergens' : string) :
  Meal.id meal' = Meal.id meal ->
  Meal.quantity meal' = Meal.quantity meal ->
  Meal.meal_time meal' = Meal.meal_time meal ->
  Meal.notes meal' = Meal.notes meal ->
  Food.category (Meal.food meal') = Food.category (Meal.food meal) ->
  Food.ingredients (Meal.food meal) = Some ingredients ->
  Food.ingredients (Meal.food meal') = Some ingredients' ->
  Food.allergens (Meal.food meal) = Some allergens ->
  Food.allergens (Meal.food meal') = Some allergens' ->
  lower ingredients' = lower ingredients ->
  lower allergens' = lower allergens ->
  features_of_meal meal_symptoms meal' = features_of_meal meal_symptoms meal.
Proof.
  intros Hid Hq Ht Hn Hc Hi Hi' Ha Ha' Hli Hla.
  unfold features_of_meal.
  rewrite !ingredient_features_spec, !allergen_features_spec.
  rewrite Hid, Hq, Ht, Hn, Hc, Hi, Hi', Ha, Ha'.
  change (default "" (Some ingredients')) with ingredients'.
  change (default "" (Some ingredients)) with ingredients.
  change (default "" (Some allergens')) with allergens'.
  change (default "" (Some allergens)) with allergens.
  rewrite Hli, Hla, (lower_nonempty _ _ Hli), (lower_nonempty _ _ Hla).
  reflexivity.
Qed.

Lemma features_ignore_case_witness :
  features_of_meal ∅ shouting_meal = features_of_meal ∅ wheat_meal.
Proof.
  apply (features_ignore_case ∅ wheat_meal shouting_meal
           "Whole wheat flour, water, yeast" "WHOLE WHEAT FLOUR, WATER, YEAST"
           "Gluten" "GLUTEN"); reflexivity.
Defined.

(** ** Preparing the features of a history *)

Section Preparing.

Context `{Sklearn}.

Lemma prepare_features_eq (st : engine) (meals_data : list Meal.t)
    (symptoms_data : list Symptom.t) :
  meals_data ≠ [] ->
  let features := features_of_meal (symptom_meal_ids symptoms_data) <$> meals_data in
  let le := LabelEncoder.fit (categories meals_data) in
  prepare_features st meals_data symptoms_data =
    (set_label_encoders (<["food_category" := le]> (label_encoders st)) st,
     (Some (zip_with (fun c mf => inject_Z (Z.of_nat c) :: feature_columns mf)
              (omap (fun v => LabelEncoder.index_of v (LabelEncoder.classes_ le))
                    (categories meals_data))
              features),
      Some (omap caused_symptoms features))).
Proof.
  destruct meals_data as [|meal meals_data]; [done|]. intros _ features le.
  unfold prepare_features. fold features.
  pose proof (categories_of_features (symptom_meal_ids symptoms_data) (meal :: meals_data)) as Hc.
  fold features in Hc. rewrite Hc. reflexivity.
Qed.

Lemma omap_index_of_lookup (l values : list string) (i : nat) (v : string) :
  Forall (fun v => v ∈ l) values ->
  values !! i = Some v ->
  ∃ c, LabelEncoder.index_of v l = Some c
     ∧ omap (fun v => LabelEncoder.index_of v l) values !! i = Some c.
Proof.
  intros Hall. revert i. induction Hall as [|w ws Hw _ IH]; intros i Hi; [done|].
  destruct (LabelEncoderFacts.index_of_elem _ _ Hw) as [cw Hcw].
  simpl. rewrite Hcw. simpl. destruct i as [|i]; simpl in *.
  - injection Hi as <-. by exists cw.
  - by apply IH.
Qed.

Lemma categories_fitted (meals_data : list Meal.t) :
  Forall (fun v => v ∈ LabelEncoder.classes_ (LabelEncoder.fit (categories meals_data)))
         (categories meals_data).
Proof.
  apply Forall_forall. intros v Hv. by apply LabelEncoderFacts.elem_of_sorted_set.
Qed.

Lemma omap_caused_symptoms (meal_symptoms : gset Z) (meals_data : list Meal.t) :
  omap caused_symptoms (features_of_meal meal_symptoms <$> meals_data)
  = (fun meal => flag (bool_decide (Meal.id meal ∈ meal_symptoms))) <$> meals_data.
Proof.
  induction meals_data as [|meal meals_data IH]; [done|].
  rewrite !fmap_cons. simpl.
  destruct (features_of_meal_fields meal_symptoms meal) as (_&_&_&_&_&_&_&_&_& ->).
  simpl. f_equal. exact IH.
Qed.

Lemma elem_of_symptom_meal_ids (symptoms_data : list Symptom.t) (meal_id : Z) :
  meal_id ∈ symptom_meal_ids symptoms_data
  ↔ ∃ s, s ∈ symptoms_data ∧ Symptom.meal_id s = meal_id.
Proof.
  unfold symptom_meal_ids. rewrite elem_of_list_to_set, list_elem_of_fmap.
  split; intros (s & ? & ?); exists s; done.
Qed.

Lemma prepare_features_inv (st st' : engine) (meals_data : list Meal.t)
    (symptoms_data : list Symptom.t) (X : list (list Q)) (y : list Z) :
  prepare_features st meals_data symptoms_data = (st', (Some X, Some y)) ->
  let le := LabelEncoder.fit (categories meals_data) in
  st' = set_label_encoders (<["food_category" := le]> (label_encoders st)) st
  ∧ X = zip_with (fun c mf => inject_Z (Z.of_nat c) :: feature_columns mf)
          (omap (fun v => LabelEncoder.index_of v (LabelEncoder.classes_ le))
                (categories meals_data))
          (features_of_meal (symptom_meal_ids symptoms_data) <$> meals_data)
  ∧ y = (fun meal => flag (bool_decide (Meal.id meal ∈ symptom_meal_ids symptoms_data)))
          <$> meals_data.
Proof.
  intros Hp le. destruct (decide (meals_data = [])) as [->|Hne]; [discriminate Hp|].
  rewrite prepare_features_eq in Hp by exact Hne. cbv zeta in Hp. fold le in Hp.
  rewrite <- omap_caused_symptoms.
  pose proof (f_equal fst Hp) as E1.
  pose proof (f_equal (fun p => fst (snd p)) Hp) as E2.
  pose proof (f_equal (fun p => snd (snd p)) Hp) as E3.
  cbn [fst snd] in E1, E2, E3.
  split; [by symmetry|]. split; congruence.
Qed.

(** X1: a training request on an empty history returns [False] and
    changes neither the engine nor the model directory; and
    [prepare_features] returns [(None, None)] for the empty history
    only. *)
Theorem train_empty_history (st : engine) (disk : gmap string artifact)
    (symptoms_data : list Symptom.t) :
  train st disk [] symptoms_data = (st, disk, Return false)
  ∧ ∀ meals_data,
      snd (prepare_features st meals_data symptoms_data) = (None, None)
      ↔ meals_data = [].
Proof.
  split; [reflexivity|]. intros meals_data. split.
  - destruct meals_data as [|meal meals_data]; [done|].
    rewrite prepare_features_eq by done. discriminate.
  - by intros ->.
Qed.

(** X2: for a history that is not empty, [prepare_features] returns a
    matrix with one row per meal, each row with the 13 feature columns
    (the label column is dropped), and a target vector with one label
    per meal, each 0 or 1. *)
Theorem prepare_features_shape (st st' : engine) (meals_data : list Meal.t)
    (symptoms_data : list Symptom.t) (X : list (list Q)) (y : list Z) :
  prepare_features st meals_data symptoms_data = (st', (Some X, Some y)) ->
  length X = length meals_data
  ∧ length y = length meals_data
  ∧ Forall (fun row => length row = 13%nat) X
  ∧ Forall (fun label => label = 0%Z ∨ label = 1%Z) y.
Proof.
  intros Hp. destruct (prepare_features_inv _ _ _ _ _ _ Hp) as (_ & -> & ->).
  split; [|split; [|split]].
  - rewrite length_zip_with, (omap_index_of_length _ _ (categories_fitted _)).
    unfold categories. rewrite !length_fmap. lia.
  - by rewrite length_fmap.
  - apply Forall_forall. intros row Hrow.
    apply elem_of_zip_with in Hrow as (c & mf & -> & _ & _). reflexivity.
  - apply Forall_fmap, Forall_forall. intros m _. apply flag_01.
Qed.

(** X3: the label of a meal is 1 exactly when some symptom record
    refers to the meal by its id, and 0 otherwise. *)
Theorem labels_follow_references (st st' : engine) (meals_data : list Meal.t)
    (symptoms_data : list Symptom.t) (X : list (list Q)) (y : list Z) :
  prepare_features st meals_data symptoms_data = (st', (Some X, Some y)) ->
  ∀ i meal, meals_data !! i = Some meal ->
    ∃ label, y !! i = Some label
      ∧ (label = 1%Z ↔ ∃ s, s ∈ symptoms_data ∧ Symptom.meal_id s = Meal.id meal)
      ∧ (label = 0%Z ↔ ¬ ∃ s, s ∈ symptoms_data ∧ Symptom.meal_id s = Meal.id meal).
Proof.
  intros Hp i meal Hi. destruct (prepare_features_inv _ _ _ _ _ _ Hp) as (_ & _ & ->).
  rewrite list_lookup_fmap, Hi. simpl.
  eexists. split; [reflexivity|].
  rewrite <- elem_of_symptom_meal_ids.
  destruct (bool_decide_reflect (Meal.id meal ∈ symptom_meal_ids symptoms_data));
    simpl; split; split; try done; tauto.
Qed.

(** X4: training and prediction encode alike.  On the engine left by
    [prepare_features], the row that [predict_symptoms] builds for a
    meal of the history (its features without the label) is the row of
    that meal in the training matrix. *)
Theorem prepared_rows_are_prediction_rows (st st' : engine)
    (meals_data : list Meal.t) (symptoms_data : list Symptom.t)
    (X : list (list Q)) (y : list Z) :
  prepare_features st meals_data symptoms_data = (st', (Some X, Some y)) ->
  ∀ i meal, meals_data !! i = Some meal ->
    ∃ row, X !! i = Some row
      ∧ encode_row st'
          (drop_label (features_of_meal (symptom_meal_ids symptoms_data) meal))
        = Return row.
Proof.
  intros Hp i meal Hi. destruct (prepare_features_inv _ _ _ _ _ _ Hp) as (-> & -> & _).
  set (meals := meals_data) in *.
  assert (categories meals !! i = Some (py_str (Food.category (Meal.food meal)))) as Hcat.
  { unfold categories. by rewrite list_lookup_fmap, Hi. }
  destruct (omap_index_of_lookup _ _ _ _ (categories_fitted meals) Hcat) as (c & Hc & Hcode).
  eexists. split.
  - rewrite lookup_zip_with, Hcode. simpl. rewrite list_lookup_fmap, Hi. reflexivity.
  - unfold encode_row, set_label_encoders. cbn [label_encoders].
    rewrite lookup_insert_eq. unfold LabelEncoder.transform_one.
    cbn [drop_label food_category].
    destruct (features_of_meal_fields (symptom_meal_ids symptoms_data) meal)
      as (_ & _ & -> & _).
    rewrite Hc. reflexivity.
Qed.

End Preparing.

Lemma prepare_features_shape_witness :
  ∃ st' X y,
    prepare_features example_engine [wheat_meal; shouting_meal] [] = (st', (Some X, Some y))
    ∧ length X = 2%nat
    ∧ length y = 2%nat
    ∧ Forall (fun row => length row = 13%nat) X
    ∧ Forall (fun label => label = 0%Z ∨ label = 1%Z) y.
Proof.
  eexists _, _, _. split; [reflexivity|].
  eapply (prepare_features_shape example_engine _ [wheat_meal; shouting_meal] []).
  reflexivity.
Defined.

Lemma labels_follow_references_witness :
  ∃ label, [flag true] !! 0%nat = Some label
    ∧ (label = 1%Z ↔ ∃ s, s ∈ [Symptom.Build 1] ∧ Symptom.meal_id s = Meal.id wheat_meal)
    ∧ (label = 0%Z ↔ ¬ ∃ s, s ∈ [Symptom.Build 1] ∧ Symptom.meal_id s = Meal.id wheat_meal).
Proof.
  apply (labels_follow_references example_engine
           (fst (prepare_features example_engine [wheat_meal] [Symptom.Build 1]))
           [wheat_meal] [Symptom.Build 1]
           (default [] (fst (snd (prepare_features example_engine [wheat_meal]
                                    [Symptom.Build 1]))))
           [flag true] eq_refl 0%nat wheat_meal eq_refl).
Defined.

Lemma prepared_rows_are_prediction_rows_witness :
  ∃ row,
    default [] (fst (snd (prepare_features example_engine [wheat_meal] []))) !! 0%nat
      = Some row
    ∧ @encode_row example_sklearn
        (fst (prepare_features example_engine [wheat_meal] []))
        (drop_label (features_of_meal (symptom_meal_ids []) wheat_meal))
      = Return row.
Proof.
  apply (@prepared_rows_are_prediction_rows example_sklearn example_engine
           (fst (prepare_features example_engine [wheat_meal] []))
           [wheat_meal] []
           (default [] (fst (snd (prepare_features example_engine [wheat_meal] []))))
           [flag false] eq_refl 0%nat wheat_meal eq_refl).
Defined.

(** ** The outcomes of [train_models] *)

Section TrainingOutcomes.

Context `{Sklearn}.

(** The three ways [train_models] ends: the early exit, an exception
    out of the library after the scaler was touched, or success. *)
Lemma train_models_cases (st : engine) (disk : gmap string artifact)
    (X : option (list (list Q))) (y : option (list Z)) :
  (too_little_data X y ∧ train_models st disk X y = (st, disk, Return false))
  ∨ (¬ too_little_data X y
     ∧ ((∃ e s, train_models st disk X y = (set_scaler s st, disk, Raise e))
        ∨ (∃ fitted rf rs lr ls,
             train_models st disk X y =
               (trained_engine st fitted rf rs lr ls,
                save_models (trained_engine st fitted rf rs lr ls) disk,
                Return true)))).
Proof.
  unfold train_models, too_little_data.
  destruct X as [X|], y as [y|]; cbn [from_option];
    try (left; split; [auto; right; reflexivity | reflexivity]).
  - destruct (length X <? 10)%nat eqn:E.
    + left. apply Nat.ltb_lt in E. auto.
    + right. apply Nat.ltb_ge in E. split; [intros [?|?]; [lia|done]|].
      destruct (train_test_split X y) as [[[X_train X_test] y_train] y_test].
      destruct (StandardScaler.fit X_train) as [fitted|e].
      * destruct (_ ≫= _) as [[[[rf rs] lr] ls]|e].
        -- right. by exists fitted, rf, rs, lr, ls.
        -- left. by exists e, (Some fitted).
      * left. by exists e, None.
  - left. split; [left; lia | reflexivity].
Qed.

(** X8: [train_models] returns [False] exactly on its early exit (no
    matrix, no targets, or fewer than 10 rows), and then nothing has
    changed.  When it returns [True] the matrix had at least 10 rows,
    the flag is set, both classifiers are stored with an accuracy, the
    scaler is fitted, the encoder table is as before, and the
    directory is the one [save_models] writes for the new engine. *)
Theorem train_models_result (st st' : engine) (disk disk' : gmap string artifact)
    (X : option (list (list Q))) (y : option (list Z)) (r : outcome bool) :
  train_models st disk X y = (st', disk', r) ->
  (r = Return false ↔ too_little_data X y)
  ∧ (r = Return false -> st' = st ∧ disk' = disk)
  ∧ (r = Return true ->
     (10 <= from_option length 0%nat X)%nat
     ∧ is_trained st' = true
     ∧ (∃ rf, models st' !! "random_forest" = Some rf ∧ is_Some (accuracy rf)
              ∧ type rf = "Random Forest")
     ∧ (∃ lr, models st' !! "logistic_regression" = Some lr ∧ is_Some (accuracy lr)
              ∧ type lr = "Logistic Regression")
     ∧ is_Some (scaler st')
     ∧ label_encoders st' = label_encoders st
     ∧ disk' = save_models st' disk).
Proof.
  intros Ht.
  destruct (train_models_cases st disk X y)
    as [[Hs E]|[Hs [(e & s & E)|(fitted & rf & rs & lr & ls & E)]]];
    rewrite E in Ht; injection Ht as <- <- <-.
  - repeat split; auto; discriminate.
  - repeat split; try discriminate; tauto.
  - split; [split; [discriminate | tauto]|]. split; [discriminate|]. intros _.
    split; [unfold too_little_data in Hs; lia|]. split; [reflexivity|].
    split.
    { eexists. split.
      - cbn [models trained_engine]. rewrite lookup_insert_ne by discriminate.
        apply lookup_insert_eq.
      - split; [by eexists | reflexivity]. }
    split.
    { eexists. split.
      - cbn [models trained_engine]. apply lookup_insert_eq.
      - split; [by eexists | reflexivity]. }
    split; [by eexists|]. split; reflexivity.
Qed.

(** X9: when a library call raises inside [train_models], the exception
    leaves the method; the models, the trained flag, the encoder table
    and the model directory are as before, and only the scaler may have
    been replaced. *)
Theorem train_models_exception (st st' : engine) (disk disk' : gmap string artifact)
    (X : option (list (list Q))) (y : option (list Z)) (e : exn) :
  train_models st disk X y = (st', disk', Raise e) ->
  disk' = disk
  ∧ models st' = models st
  ∧ is_trained st' = is_trained st
  ∧ label_encoders st' = label_encoders st
  ∧ model_path st' = model_path st
  ∧ (10 <= from_option length 0%nat X)%nat.
Proof.
  intros Ht.
  destruct (train_models_cases st disk X y)
    as [[Hs E]|[Hs [(e' & s & E)|(fitted & rf & rs & lr & ls & E)]]];
    rewrite E in Ht; try discriminate Ht.
  injection Ht as <- <- _. repeat split. unfold too_little_data in Hs. lia.
Qed.

(** X10: [prepare_features] and [train_models] keep what
    [predict_symptoms] relies on: an engine whose flag is set holds
    both classifiers.  A new engine has the property, and on an engine
    that has it and has the category encoder, [predict_symptoms] never
    raises [KeyError]. *)
Theorem usable_is_kept (st : engine) :
  (∀ path, usable (__init__ path))
  ∧ (usable st ->
     (∀ meals_data symptoms_data,
        usable (fst (prepare_features st meals_data symptoms_data)))
     ∧ (∀ disk X y, usable (fst (fst (train_models st disk X y))))
     ∧ (∀ mf key,
          is_Some (label_encoders st !! "food_category") ->
          predict_symptoms st mf ≠ Raise (KeyError key))).
Proof.
  split; [intros path Ht; discriminate Ht|]. intros Hu. split; [|split].
  - intros meals_data symptoms_data.
    destruct (decide (meals_data = [])) as [->|Hne]; [exact Hu|].
    rewrite prepare_features_eq by exact Hne. exact Hu.
  - intros disk X y.
    destruct (train_models_cases st disk X y)
      as [[_ E]|[_ [(e & s & E)|(fitted & rf & rs & lr & ls & E)]]]; rewrite E;
      cbn [fst]; [exact Hu | exact Hu |].
    intros _. cbn [models trained_engine]. split.
    + rewrite lookup_insert_ne by discriminate. rewrite lookup_insert_eq. by eexists.
    + rewrite lookup_insert_eq. by eexists.
  - intros mf key [le Hle]. unfold predict_symptoms.
    destruct (is_trained st) eqn:Ht; [|discriminate]. cbn [negb].
    destruct (Hu Ht) as [[rf Hrf] [lr Hlr]].
    unfold encode_row, models_getitem. rewrite Hrf, Hlr, Hle.
    unfold LabelEncoder.transform_one.
    destruct (LabelEncoder.index_of _ _); [|discriminate]. cbn.
    unfold StandardScaler.transform_row.
    destruct (scaler st) as [s|]; [|discriminate].
    destruct (_ =? _)%nat; discriminate.
Qed.

End TrainingOutcomes.

Lemma train_models_result_witness :
  let t := @train_models example_sklearn (__init__ "data/models/") ∅
             (Some ten_rows) (Some ten_targets) in
  (snd t = Return false ↔ too_little_data (Some ten_rows) (Some ten_targets))
  ∧ (snd t = Return false -> fst (fst t) = __init__ "data/models/" ∧ snd (fst t) = ∅)
  ∧ (snd t = Return true ->
     (10 <= length ten_rows)%nat
     ∧ is_trained (fst (fst t)) = true
     ∧ (∃ rf, models (fst (fst t)) !! "random_forest" = Some rf ∧ is_Some (accuracy rf)
              ∧ type rf = "Random Forest")
     ∧ (∃ lr, models (fst (fst t)) !! "logistic_regression" = Some lr
              ∧ is_Some (accuracy lr) ∧ type lr = "Logistic Regression")
     ∧ is_Some (scaler (fst (fst t)))
     ∧ label_encoders (fst (fst t)) = label_encoders (__init__ "data/models/")
     ∧ snd (fst t) = save_models (fst (fst t)) ∅).
Proof.
  intros t.
  apply (@train_models_result example_sklearn (__init__ "data/models/") (fst (fst t)) ∅
           (snd (fst t)) (Some ten_rows) (Some ten_targets) (snd t)).
  vm_compute. reflexivity.
Defined.

Lemma train_models_exception_witness :
  let t := @train_models failing_sklearn example_engine ∅
             (Some ten_rows) (Some ten_targets) in
  snd t = Raise (ValueError "This solver needs samples of at least 2 classes")
  ∧ snd (fst t) = ∅
  ∧ models (fst (fst t)) = models example_engine
  ∧ is_trained (fst (fst t)) = is_trained example_engine
  ∧ label_encoders (fst (fst t)) = label_encoders example_engine
  ∧ model_path (fst (fst t)) = model_path example_engine
  ∧ (10 <= length ten_rows)%nat.
Proof.
  intros t. split; [vm_compute; reflexivity|].
  apply (@train_models_exception failing_sklearn example_engine (fst (fst t)) ∅
           (snd (fst t)) (Some ten_rows) (Some ten_targets)
           (ValueError "This solver needs samples of at least 2 classes")).
  vm_compute. reflexivity.
Defined.

(** ** The model directory *)

Section Directory.

Context `{Sklearn}.

Lemma save_loop_keeps (st : engine) (items : list (string * model_info))
    (disk : gmap string artifact) (file : string) :
  is_Some (disk !! file) -> is_Some (save_loop st disk items !! file).
Proof.
  revert disk. induction items as [|item items IH]; intros disk Hf; [exact Hf|].
  apply (IH (<[pkl st (fst item) := PickledModel (model (snd item))]> disk)).
  apply lookup_insert_is_Some. destruct (decide (pkl st (fst item) = file)); auto.
Qed.

(** X11: [save_models] writes nothing for an engine that is not trained;
    otherwise it leaves every path that is not the file of an artifact
    of this engine as it was, and it removes no file. *)
Theorem save_models_frame (st : engine) (disk : gmap string artifact) :
  (is_trained st = false -> save_models st disk = disk)
  ∧ (∀ file, (∀ name, file ≠ pkl st name) ->
             save_models st disk !! file = disk !! file)
  ∧ (∀ file, is_Some (disk !! file) -> is_Some (save_models st disk !! file)).
Proof.
  unfold save_models. split; [by intros ->|]. split.
  - intros file Hfile. destruct (is_trained st); [|done]. cbn [negb].
    rewrite !lookup_insert_ne by (apply not_eq_sym, Hfile).
    apply save_loop_other. intros Hin.
    apply list_elem_of_fmap in Hin as (item & E & _). by apply (Hfile (fst item)).
  - intros file Hf. destruct (is_trained st); [|done]. cbn [negb].
    apply lookup_insert_is_Some.
    destruct (decide (pkl st "encoders" = file)); [auto|right; split; [done|]].
    apply lookup_insert_is_Some.
    destruct (decide (pkl st "scaler" = file)); [auto|right; split; [done|]].
    by apply save_loop_keeps.
Qed.

(** X12: the cold start.  When the directory holds neither classifier
    file and lacks the scaler file or the encoders file, [load_models]
    returns [False] and leaves the engine as it was. *)
Theorem load_models_cold_start (st : engine) (disk : gmap string artifact) :
  disk !! pkl st "random_forest" = None ->
  disk !! pkl st "logistic_regression" = None ->
  disk !! pkl st "scaler" = None ∨ disk !! pkl st "encoders" = None ->
  load_models st disk = (st, false).
Proof.
  intros Hrf Hlr Hse. unfold load_models, load_model, exists_.
  rewrite Hrf. rewrite bool_decide_eq_false_2 by (intros [? ?]; done).
  rewrite Hlr. rewrite bool_decide_eq_false_2 by (intros [? ?]; done).
  destruct Hse as [-> | ->].
  - rewrite bool_decide_eq_false_2 by (intros [? ?]; done). reflexivity.
  - rewrite (bool_decide_eq_false_2 (is_Some None)) by (intros [? ?]; done).
    by rewrite andb_false_r.
Qed.

Lemma load_model_result (disk : gmap string artifact) (name : string)
    (st st' : engine) (r : outcome ()) :
  load_model disk name st = (st', r) ->
  model_path st' = model_path st
  ∧ label_encoders st' = label_encoders st
  ∧ scaler st' = scaler st
  ∧ is_trained st' = is_trained st
  ∧ (∀ other, other ≠ name -> models st' !! other = models st !! other)
  ∧ (models st' !! name = models st !! name
     ∨ ∃ c, disk !! pkl st name = Some (PickledModel c)
          ∧ models st' !! name =
              Some {| model := c; accuracy := None;
                      type := title (replace_char "_" " " name) |}).
Proof.
  unfold load_model, load_classifier. intros E.
  destruct (exists_ disk (pkl st name)).
  - destruct (disk !! pkl st name) as [[c|s|e]|] eqn:Ed; injection E as <- <-;
      repeat split; auto.
    + intros other Ho. cbn [models set_models]. by rewrite lookup_insert_ne.
    + right. exists c. split; [done|]. cbn [models set_models]. apply lookup_insert_eq.
  - injection E as <- <-. repeat split; auto.
Qed.

(** X13: what [load_models] leaves.  When it returns [True] the flag is
    set and the scaler and the encoder table are the ones stored in the
    directory; when it returns [False] the flag and the encoder table
    are as before.  It never clears the flag, it touches no entry of
    [self.models] other than the two classifiers, and an entry it
    changes holds the classifier of that file, without an accuracy. *)
Theorem load_models_result (st st' : engine) (disk : gmap string artifact) (ok : bool) :
  load_models st disk = (st', ok) ->
  model_path st' = model_path st
  ∧ (ok = true ->
     is_trained st' = true
     ∧ disk !! pkl st "scaler" = Some (PickledScaler (scaler st'))
     ∧ disk !! pkl st "encoders" = Some (PickledEncoders (label_encoders st')))
  ∧ (ok = false ->
     is_trained st' = is_trained st ∧ label_encoders st' = label_encoders st)
  ∧ (is_trained st = true -> is_trained st' = true)
  ∧ (∀ name, name ≠ "random_forest" -> name ≠ "logistic_regression" ->
             models st' !! name = models st !! name)
  ∧ (∀ name, models st' !! name ≠ models st !! name ->
             ∃ c, disk !! pkl st name = Some (PickledModel c)
                ∧ (model <$> models st' !! name) = Some c
                ∧ (accuracy <$> models st' !! name) = Some None).
Proof.
  unfold load_models. intros E.
  destruct (load_model disk "random_forest" st) as [st1 r1] eqn:E1.
  destruct (load_model_result _ _ _ _ _ E1) as (P1 & L1 & S1 & T1 & O1 & M1).
  assert (∀ name, pkl st1 name = pkl st name) as Hp1 by (intros; by apply pkl_path).
  assert (∀ name, models st1 !! name ≠ models st !! name ->
            ∃ c, disk !! pkl st name = Some (PickledModel c)
               ∧ (model <$> models st1 !! name) = Some c
               ∧ (accuracy <$> models st1 !! name) = Some None) as N1.
  { intros name Hn. destruct (decide (name = "random_forest")) as [->|Hne].
    - destruct M1 as [M1|(c & Hc & M1)]; [done|]. exists c. by rewrite M1.
    - by rewrite O1 in Hn. }
  destruct r1 as [[]|e1].
  2:{ injection E as <- <-. rewrite T1, L1. repeat split; auto; discriminate. }
  destruct (load_model disk "logistic_regression" st1) as [st2 r2] eqn:E2.
  destruct (load_model_result _ _ _ _ _ E2) as (P2 & L2 & S2 & T2 & O2 & M2).
  assert (∀ name, pkl st2 name = pkl st name) as Hp2.
  { intros. apply pkl_path. congruence. }
  assert (∀ name, name ≠ "random_forest" -> name ≠ "logistic_regression" ->
                  models st2 !! name = models st !! name) as O12.
  { intros name ? ?. rewrite O2, O1; done. }
  assert (∀ name, models st2 !! name ≠ models st !! name ->
            ∃ c, disk !! pkl st name = Some (PickledModel c)
               ∧ (model <$> models st2 !! name) = Some c
               ∧ (accuracy <$> models st2 !! name) = Some None) as N2.
  { intros name Hn. destruct (decide (name = "logistic_regression")) as [->|Hne].
    - destruct M2 as [M2|(c & Hc & M2)].
      + rewrite M2 in *. by apply N1.
      + exists c. rewrite M2, <- Hp1. done.
    - rewrite O2 in * by done. by apply N1. }
  destruct r2 as [[]|e2].
  2:{ injection E as <- <-. rewrite T2, T1, L2, L1, P2, P1.
      repeat split; auto; discriminate. }
  destruct (disk !! pkl st2 "scaler") as [a|] eqn:Es;
    [rewrite (exists_Some _ _ _ Es) in E | rewrite (exists_None _ _ Es) in E];
    (destruct (disk !! pkl st2 "encoders") as [b|] eqn:Ee;
     [rewrite (exists_Some _ _ _ Ee) in E | rewrite (exists_None _ _ Ee) in E]);
    cbn [andb] in E; rewrite Hp2 in Es, Ee;
    try (injection E as <- <-; rewrite T2, T1, L2, L1, P2, P1;
         repeat split; auto; discriminate).
  unfold load_scaler in E. rewrite Hp2, Es in E.
  destruct a as [c|s|e];
    try (injection E as <- <-; rewrite T2, T1, L2, L1, P2, P1;
         repeat split; auto; discriminate).
  change (pkl (set_scaler s st2) "encoders") with (pkl st2 "encoders") in E.
  unfold load_encoders in E. rewrite Hp2, Ee in E.
  destruct b as [c|s'|e]; injection E as <- <-;
    cbn [is_trained label_encoders scaler models model_path
         set_is_trained set_label_encoders set_scaler];
    rewrite ?T2, ?T1, ?L2, ?L1, ?P2, ?P1;
    repeat split; auto; discriminate.
Qed.

End Directory.

Lemma load_models_cold_start_witness :
  load_models (__init__ "data/models/") ∅ = (__init__ "data/models/", false).
Proof.
  apply (load_models_cold_start (__init__ "data/models/") ∅);
    [reflexivity | reflexivity | left; reflexivity].
Defined.

Lemma load_models_result_witness :
  let l := load_models (__init__ "data/models/") partial_disk in
  model_path (fst l) = "data/models/"
  ∧ (snd l = true ->
     is_trained (fst l) = true
     ∧ partial_disk !! pkl (__init__ "data/models/") "scaler"
       = Some (PickledScaler (scaler (fst l)))
     ∧ partial_disk !! pkl (__init__ "data/models/") "encoders"
       = Some (PickledEncoders (label_encoders (fst l))))
  ∧ (snd l = false ->
     is_trained (fst l) = false ∧ label_encoders (fst l) = ∅)
  ∧ (false = true -> is_trained (fst l) = true)
  ∧ (∀ name, name ≠ "random_forest" -> name ≠ "logistic_regression" ->
             models (fst l) !! name = (∅ : gmap string model_info) !! name)
  ∧ (∀ name, models (fst l) !! name ≠ (∅ : gmap string model_info) !! name ->
             ∃ c, partial_disk !! pkl (__init__ "data/models/") name = Some (PickledModel c)
                ∧ (model <$> models (fst l) !! name) = Some c
                ∧ (accuracy <$> models (fst l) !! name) = Some None).
Proof.
  intros l.
  apply (load_models_result (__init__ "data/models/") (fst l) partial_disk (snd l)).
  vm_compute. reflexivity.
Defined.

(** ** Training, then loading, then predicting *)

Section Lifecycle.

Context `{Sklearn}.

(** X14: after a successful [train_models], an engine on the same path
    that calls [load_models] succeeds and answers every input as the
    engine that was trained (the same dictionary, or the same
    exception). *)
Theorem train_then_load (st st' st0 : engine) (disk disk' : gmap string artifact)
    (X : option (list (list Q))) (y : option (list Z)) :
  (∀ name, is_Some (models st !! name) ->
           name = "random_forest" ∨ name = "logistic_regression") ->
  train_models st disk X y = (st', disk', Return true) ->
  model_path st0 = model_path st ->
  snd (load_models st0 disk') = true
  ∧ ∀ mf, predict_symptoms (fst (load_models st0 disk')) mf = predict_symptoms st' mf.
Proof.
  intros Hdom Ht Hpath.
  destruct (train_models_cases st disk X y)
    as [[_ E]|[_ [(e & s & E)|(fitted & rf & rs & lr & ls & E)]]];
    rewrite E in Ht; try discriminate Ht.
  injection Ht as <- <-.
  set (st' := trained_engine st fitted rf rs lr ls).
  assert (models st' !! "random_forest" =
            Some {| model := rf; accuracy := Some rs; type := "Random Forest" |}) as Hrf.
  { cbn [st' models trained_engine]. rewrite lookup_insert_ne by discriminate.
    apply lookup_insert_eq. }
  assert (models st' !! "logistic_regression" =
            Some {| model := lr; accuracy := Some ls; type := "Logistic Regression" |})
    as Hlr.
  { cbn [st' models trained_engine]. apply lookup_insert_eq. }
  assert (∀ name, is_Some (models st' !! name) ->
                  name = "random_forest" ∨ name = "logistic_regression") as Hdom'.
  { intros name. cbn [st' models trained_engine].
    rewrite !lookup_insert_is_Some. intros [<-|[_ [<-|[_ Hn]]]]; auto. }
  destruct (save_models_lookup st' disk _ _ eq_refl Hrf Hlr Hdom') as (Drf & Dlr & Ds & De).
  assert (model_path st0 = model_path st') as Hpath' by exact Hpath.
  rewrite <- !(pkl_path st0 st' _ Hpath') in *.
  destruct (load_models_complete st0 _ _ _ _ _ Drf Dlr Ds De)
    as (st'' & -> & Ht'' & Hs'' & He'' & Hrf'' & Hlr'').
  split; [reflexivity|]. intros mf. cbn [fst].
  apply predict_symptoms_ext.
  - by rewrite Ht''.
  - by rewrite He''.
  - by rewrite Hs''.
  - by rewrite Hrf'', Hrf.
  - by rewrite Hlr'', Hlr.
Qed.

(** What a prediction that is returned by a trained engine went
    through. *)
Lemma predict_symptoms_inv (st : engine) (mf : meal_features) (r : result) :
  is_trained st = true ->
  predict_symptoms st mf = Return r ->
  ∃ row x rf lr,
    encode_row st mf = Return row
    ∧ StandardScaler.transform_row (scaler st) row = Return x
    ∧ models st !! "random_forest" = Some rf
    ∧ models st !! "logistic_regression" = Some lr.
Proof.
  intros Ht Hr. unfold predict_symptoms, models_getitem in Hr.
  rewrite Ht in Hr. cbn [negb] in Hr.
  destruct (encode_row st mf) as [row|] eqn:Hrow; [|discriminate Hr].
  cbn in Hr.
  destruct (StandardScaler.transform_row (scaler st) row) as [x|] eqn:Hx;
    [|discriminate Hr].
  cbn in Hr.
  destruct (models st !! "random_forest") as [rf|] eqn:Hrf; [|discriminate Hr].
  cbn in Hr.
  destruct (models st !! "logistic_regression") as [lr|] eqn:Hlr; [|discriminate Hr].
  by exists row, x, rf, lr.
Qed.

(** X15: in a prediction returned by a trained engine the
    recommendation follows from the label and the category alone: the
    reassurance for "Unlikely"; for "Likely" the advice of the category
    when it is exactly dairy, gluten or spicy, and the generic advice
    for every other category, a missing one included. *)
Theorem recommendation_follows_label (st : engine) (mf : meal_features) (r : result) :
  is_trained st = true ->
  predict_symptoms st mf = Return r ->
  (prediction r = "Unlikely to cause symptoms" ∧ recommendation r = reassurance)
  ∨ (prediction r = "Likely to cause symptoms"
     ∧ (food_category mf = Some "dairy" -> recommendation r = dairy_advice)
     ∧ (food_category mf = Some "gluten" -> recommendation r = gluten_advice)
     ∧ (food_category mf = Some "spicy" -> recommendation r = spicy_advice)
     ∧ (food_category mf ≠ Some "dairy" -> food_category mf ≠ Some "gluten" ->
        food_category mf ≠ Some "spicy" -> recommendation r = generic_advice)).
Proof.
  intros Ht Hr.
  destruct (predict_symptoms_inv st mf r Ht Hr) as (row & x & rf & lr & Hrow & Hx & Hrf & Hlr).
  rewrite (predict_symptoms_trained st mf row x rf lr Ht Hrow Hx Hrf Hlr) in Hr.
  injection Hr as <-. cbn [prediction recommendation].
  destruct (above_half _); [right | left; split; reflexivity].
  split; [reflexivity|]. unfold _generate_recommendation. cbn [Z.eqb Pos.eqb].
  repeat split.
  - by intros ->.
  - by intros ->.
  - by intros ->.
  - intros Hd Hg Hs. by rewrite !bool_decide_eq_false_2.
Qed.

(** X16: a dictionary that still carries the label key is refused.  On
    a trained engine that has the category encoder and a scaler fitted
    on the 13 feature columns, [predict_symptoms] raises [ValueError]
    for it. *)
Theorem labelled_features_rejected (st : engine) (s : StandardScaler.stats)
    (mf : meal_features) (label : Z) :
  is_trained st = true ->
  is_Some (label_encoders st !! "food_category") ->
  scaler st = Some s ->
  length (StandardScaler.mean_ s) = 13%nat ->
  caused_symptoms mf = Some label ->
  ∃ msg, predict_symptoms st mf = Raise (ValueError msg).
Proof.
  intros Ht [le Hle] Hs Hlen Hl. unfold predict_symptoms, encode_row.
  rewrite Ht, Hle, Hs. cbn [negb]. unfold LabelEncoder.transform_one.
  destruct (LabelEncoder.index_of _ _) as [c|]; [|by eexists].
  cbn. unfold StandardScaler.transform_row, numeric_columns.
  rewrite Hl, Hlen. cbn. by eexists.
Qed.


End Lifecycle.

Lemma train_then_load_witness :
  let t := @train_models example_sklearn (__init__ "data/models/") ∅
             (Some ten_rows) (Some ten_targets) in
  snd (load_models (__init__ "data/models/") (snd (fst t))) = true
  ∧ ∀ mf, @predict_symptoms example_sklearn
            (fst (load_models (__init__ "data/models/") (snd (fst t)))) mf
          = @predict_symptoms example_sklearn (fst (fst t)) mf.
Proof.
  intros t.
  apply (@train_then_load example_sklearn (__init__ "data/models/") (fst (fst t))
           (__init__ "data/models/") ∅ (snd (fst t)) (Some ten_rows) (Some ten_targets));
    [ | vm_compute; reflexivity | reflexivity].
  intros name [info Hname]. cbn [models __init__] in Hname.
  by rewrite lookup_empty in Hname.
Defined.

Lemma recommendation_follows_label_witness :
  ∃ r, @predict_symptoms example_sklearn example_engine (example_features "dairy") = Return r
    ∧ ((prediction r = "Unlikely to cause symptoms" ∧ recommendation r = reassurance)
       ∨ (prediction r = "Likely to cause symptoms"
          ∧ (Some "dairy" = Some "dairy" -> recommendation r = dairy_advice)
          ∧ (Some "dairy" = Some "gluten" -> recommendation r = gluten_advice)
          ∧ (Some "dairy" = Some "spicy" -> recommendation r = spicy_advice)
          ∧ (Some "dairy" ≠ Some "dairy" -> Some "dairy" ≠ Some "gluten" ->
             Some "dairy" ≠ Some "spicy" -> recommendation r = generic_advice))).
Proof.
  eexists. split; [vm_compute; reflexivity|].
  apply (@recommendation_follows_label example_sklearn example_engine
           (example_features "dairy"));
    [reflexivity | vm_compute; reflexivity].
Defined.

Lemma labelled_features_rejected_witness :
  ∃ msg, @predict_symptoms example_sklearn example_engine labelled_features
         = Raise (ValueError msg).
Proof.
  apply (@labelled_features_rejected example_sklearn example_engine
           {| StandardScaler.mean_ := replicate 13 0%Q;
              StandardScaler.var_ := replicate 13 1%Q;
              StandardScaler.scale_ := replicate 13 1%Q |}
           labelled_features 1%Z);
    [reflexivity | vm_compute; eexists; reflexivity | reflexivity | reflexivity | reflexivity].
Defined.


(** ** The ranking of the features *)

Section Ranking.

Context `{ForestAttributes}.

Lemma insert_by_importance_perm (item : string * Q) (l : list (string * Q)) :
  insert_by_importance item l ≡ₚ item :: l.
Proof.
  induction l as [|other rest IH]; simpl; [done|].
  destruct (Qle_bool (snd other) (snd item)); [done|].
  rewrite IH. apply Permutation_swap.
Qed.

Lemma sort_by_importance_perm (l : list (string * Q)) : sort_by_importance l ≡ₚ l.
Proof.
  induction l as [|item l IH]; simpl; [done|].
  by rewrite insert_by_importance_perm, IH.
Qed.

Lemma insert_by_importance_sorted (item : string * Q) (l : list (string * Q)) :
  StronglySorted ranked l -> StronglySorted ranked (insert_by_importance item l).
Proof.
  induction l as [|other rest IH]; simpl; intros Hs.
  - repeat constructor.
  - apply StronglySorted_cons in Hs as [Hall Hrest].
    destruct (Qle_bool (snd other) (snd item)) eqn:E.
    + apply Qle_bool_iff in E. apply StronglySorted_cons. split.
      * constructor; [exact E|]. eapply Forall_impl; [exact Hall|].
        intros b Hb. unfold ranked in *. by eapply Qle_trans.
      * by apply StronglySorted_cons.
    + assert (snd item <= snd other)%Q as Hlt.
      { apply Qlt_le_weak, Qnot_le_lt. intros Hle. apply Qle_bool_iff in Hle. congruence. }
      apply StronglySorted_cons. split; [|by apply IH].
      apply Forall_forall. intros b Hb.
      rewrite insert_by_importance_perm in Hb. apply elem_of_cons in Hb as [->|Hb].
      * exact Hlt.
      * by eapply Forall_forall in Hall.
Qed.

Lemma sort_by_importance_sorted (l : list (string * Q)) :
  StronglySorted ranked (sort_by_importance l).
Proof.
  induction l; simpl; [constructor | by apply insert_by_importance_sorted].
Qed.

(** X18: [get_feature_importance] returns [None] exactly when the engine
    is not trained or holds no random forest.  Otherwise it returns the
    feature names paired with the forest's importances: every pair
    once, the largest importance first, at most 13 of them. *)
Theorem feature_importance_ranking (st : engine) :
  (get_feature_importance st = None
   ↔ is_trained st = false ∨ models st !! "random_forest" = None)
  ∧ ∀ ranking, get_feature_importance st = Some ranking ->
      ∃ info, models st !! "random_forest" = Some info
        ∧ ranking ≡ₚ zip feature_names (feature_importances_ (model info))
        ∧ StronglySorted ranked ranking
        ∧ (length ranking <= 13)%nat.
Proof.
  unfold get_feature_importance.
  assert (length feature_names = 13%nat) as Hlen by reflexivity.
  set (names := feature_names) in *. clearbody names. split.
  - destruct (is_trained st); cbn [negb].
    + destruct (models st !! "random_forest"); split; intros Hx;
        [discriminate Hx | destruct Hx as [Hx|Hx]; discriminate Hx
         | right; reflexivity | reflexivity].
    + split; auto.
  - intros ranking. destruct (is_trained st); cbn [negb]; [|done].
    destruct (models st !! "random_forest") as [info|]; [|done].
    intros [= <-]. exists info. split; [done|].
    split; [apply sort_by_importance_perm|].
    split; [apply sort_by_importance_sorted|].
    rewrite sort_by_importance_perm, length_zip_with, Hlen. lia.
Qed.

End Ranking.

Example feature_importance_example :
  @get_feature_importance example_forest example_engine =
    Some [ ("has_dairy", 1 # 2); ("food_category", 1 # 4); ("has_spicy", 1 # 4);
           ("meal_hour", 0); ("meal_day_of_week", 0); ("has_quantity", 0);
           ("quantity", 0); ("has_notes", 0); ("has_ingredients", 0);
           ("has_gluten", 0); ("has_allergens", 0); ("allergen_count", 0);
           ("days_since_epoch", 0) ]%Q.
Proof. vm_compute. reflexivity. Qed.
